(** * CommentController (src/comment.ts)

    A shallow embedding of the comment dispatcher of the terraform-cdk
    action: [postComment] and its helpers, over a writer/exception monad
    that records every [core.debug], [core.setFailed] and REST request in
    program order.  JavaScript strings are modelled as UTF-8 byte strings,
    JavaScript integers (pull-request numbers, comment ids) as [Z]. *)

From Stdlib Require Import ZArith List String Ascii Bool Lia.
Import ListNotations.
Open Scope string_scope.
Open Scope Z_scope.

(** ** JavaScript values *)

Module Js.

(** Truthiness of a [number] that is an integer: only [0] is falsy. *)
Definition truthy_number (n : Z) : bool := negb (n =? 0).

(** Truthiness of a [string]: only the empty string is falsy. *)
Definition truthy_string (s : string) : bool :=
  match s with EmptyString => false | String _ _ => true end.

(** Truthiness of a [T | undefined]. *)
Definition truthy_opt {A} (t : A -> bool) (o : option A) : bool :=
  match o with Some a => t a | None => false end.

(** [`${x}`] for [x : string | undefined]. *)
Definition template (o : option string) : string :=
  match o with Some s => s | None => "undefined" end.

Definition LF : string := String (ascii_of_nat 10) EmptyString.

(** [s.startsWith(p)]. *)
Fixpoint startsWith (p s : string) : bool :=
  match p, s with
  | EmptyString, _ => true
  | String a p', String b s' => Ascii.eqb a b && startsWith p' s'
  | String _ _, EmptyString => false
  end.

(** [s.includes(t)]: [t] occurs in [s] as a contiguous substring. *)
Fixpoint includes (s t : string) : bool :=
  startsWith t s ||
  match s with
  | EmptyString => false
  | String _ s' => includes s' t
  end.

(** *** [JSON.stringify] on strings and flat objects of strings *)

Definition hex_digit (n : Z) : ascii :=
  ascii_of_nat (Z.to_nat (if n <? 10 then 48 + n else 87 + n)).

Definition hex_byte (b : Z) : string :=
  String (hex_digit (b / 16)) (String (hex_digit (b mod 16)) EmptyString).

Definition code (c : ascii) : Z := Z.of_nat (nat_of_ascii c).

(** QuoteJSONString, one code unit at a time. *)
Definition json_escape_char (c : ascii) : string :=
  let n := code c in
  if n =? 8 then "\b"
  else if n =? 9 then "\t"
  else if n =? 10 then "\n"
  else if n =? 12 then "\f"
  else if n =? 13 then "\r"
  else if n =? 34 then String "\" (String c EmptyString)
  else if n =? 92 then "\\"
  else if n <? 32 then "\u00" ++ hex_byte n
  else String c EmptyString.

Fixpoint json_escape (s : string) : string :=
  match s with
  | EmptyString => EmptyString
  | String c s' => json_escape_char c ++ json_escape s'
  end.

Definition DQ : string := String (ascii_of_nat 34) EmptyString.

Definition json_string (s : string) : string := DQ ++ json_escape s ++ DQ.

Definition json_member (kv : string * string) : string :=
  json_string (fst kv) ++ ":" ++ json_string (snd kv).

Fixpoint json_members (kvs : list (string * string)) : string :=
  match kvs with
  | [] => ""
  | [kv] => json_member kv
  | kv :: rest => json_member kv ++ "," ++ json_members rest
  end.

(** [JSON.stringify(o)] for an object whose own properties, in insertion
    order, are [kvs], all of them strings. *)
Definition JSON_stringify (kvs : list (string * string)) : string :=
  "{" ++ json_members kvs ++ "}".

End Js.

(** ** Node's [crypto.createHash("md5")] (RFC 1321) *)

Module Md5.

Definition w32 (x : Z) : Z := x mod 4294967296.
Definition rotl (x : Z) (c : Z) : Z :=
  w32 (Z.lor (Z.shiftl x c) (Z.shiftr x (32 - c))).
Definition not32 (x : Z) : Z := Z.lxor x 4294967295.

Definition K : list Z :=
  [ 3614090360; 3905402710; 606105819; 3250441966;
    4118548399; 1200080426; 2821735955; 4249261313;
    1770035416; 2336552879; 4294925233; 2304563134;
    1804603682; 4254626195; 2792965006; 1236535329;
    4129170786; 3225465664; 643717713; 3921069994;
    3593408605; 38016083; 3634488961; 3889429448;
    568446438; 3275163606; 4107603335; 1163531501;
    2850285829; 4243563512; 1735328473; 2368359562;
    4294588738; 2272392833; 1839030562; 4259657740;
    2763975236; 1272893353; 4139469664; 3200236656;
    681279174; 3936430074; 3572445317; 76029189;
    3654602809; 3873151461; 530742520; 3299628645;
    4096336452; 1126891415; 2878612391; 4237533241;
    1700485571; 2399980690; 4293915773; 2240044497;
    1873313359; 4264355552; 2734768916; 1309151649;
    4149444226; 3174756917; 718787259; 3951481745 ].

Definition S : list Z :=
  [ 7; 12; 17; 22; 7; 12; 17; 22; 7; 12; 17; 22; 7; 12; 17; 22;
    5; 9; 14; 20; 5; 9; 14; 20; 5; 9; 14; 20; 5; 9; 14; 20;
    4; 11; 16; 23; 4; 11; 16; 23; 4; 11; 16; 23; 4; 11; 16; 23;
    6; 10; 15; 21; 6; 10; 15; 21; 6; 10; 15; 21; 6; 10; 15; 21 ].

Record state := mk { sa : Z; sb : Z; sc : Z; sd : Z }.

Definition init : state :=
  mk 1732584193 4023233417 2562383102 271733878.

Definition round (M : list Z) (st : state) (i : nat) : state :=
  let '(mk a b c d) := st in
  let zi := Z.of_nat i in
  let '(f, g) :=
    if zi <? 16 then (Z.lor (Z.land b c) (Z.land (not32 b) d), zi)
    else if zi <? 32 then
      (Z.lor (Z.land d b) (Z.land (not32 d) c), (5 * zi + 1) mod 16)
    else if zi <? 48 then (Z.lxor b (Z.lxor c d), (3 * zi + 5) mod 16)
    else (Z.lxor c (Z.lor b (not32 d)), (7 * zi) mod 16) in
  let f' := w32 (f + a + nth i K 0 + nth (Z.to_nat g) M 0) in
  mk d (w32 (b + rotl f' (nth i S 0))) b c.

Definition block (st : state) (M : list Z) : state :=
  let '(mk a b c d) := fold_left (round M) (seq 0 64) st in
  mk (w32 (sa st + a)) (w32 (sb st + b)) (w32 (sc st + c)) (w32 (sd st + d)).

Definition le_bytes (n : nat) (x : Z) : list Z :=
  map (fun k => (x / 2 ^ (8 * Z.of_nat k)) mod 256) (seq 0 n).

Definition pad (msg : list Z) : list Z :=
  let len := Z.of_nat (List.length msg) in
  let zeros := Z.to_nat ((55 - len) mod 64) in
  msg ++ [128] ++ repeat 0 zeros ++ le_bytes 8 ((8 * len) mod 2 ^ 64).

Fixpoint words (n : nat) (bs : list Z) : list Z :=
  match n, bs with
  | Datatypes.S n', b0 :: b1 :: b2 :: b3 :: rest =>
      (b0 + 256 * b1 + 65536 * b2 + 16777216 * b3) :: words n' rest
  | _, _ => []
  end.

Fixpoint blocks (n : nat) (st : state) (bs : list Z) : state :=
  match n with
  | O => st
  | Datatypes.S n' =>
      blocks n' (block st (words 16 (firstn 64 bs))) (skipn 64 bs)
  end.

Definition digest (msg : list Z) : list Z :=
  let p := pad msg in
  let '(mk a b c d) := blocks (List.length p / 64) init p in
  le_bytes 4 a ++ le_bytes 4 b ++ le_bytes 4 c ++ le_bytes 4 d.

Fixpoint bytes_of (s : string) : list Z :=
  match s with
  | EmptyString => []
  | String c s' => Js.code c :: bytes_of s'
  end.

Definition hex (bs : list Z) : string :=
  fold_right (fun b acc => Js.hex_byte b ++ acc) "" bs.

Definition hexdigest (s : string) : string := hex (digest (bytes_of s)).

End Md5.

(** ** Data model *)

(** Modelled from the spec: the [Inputs] interface of src/models.ts, which
    the controller imports; the spec lists [commentMode], [updateComment]
    and the five identity fields.  [commentMode] is kept a string, as the
    dispatcher has a branch for values outside the three known modes. *)
Record Inputs := {
  commentMode : string;
  updateComment : bool;
  cdktfVersion : string;
  terraformVersion : string;
  workingDirectory : string;
  stackName : string;
  mode : string
}.

(** What the controller reads of a pull-request payload and of a search
    hit: its [number]. *)
Record Issue := { number : Z }.

Record PayloadRepository := { full_name : option string }.

Record WebhookPayload := {
  pull_request : option Issue;
  repository : option PayloadRepository
}.

(** [context.repo]. *)
Record Repo := { owner : string; repo : string }.

Record Context := {
  payload : WebhookPayload;
  sha : option string;
  context_repo : Repo
}.

(** A comment record as the platform returns it. *)
Record Comment := { id : Z; body : option string }.

(** [result.data] of a search: the hits, and the rendering of the whole
    response by [JSON.stringify(result.data, null, 2)] (the response has
    more fields than the controller reads, so the text is carried along). *)
Record SearchData := { items : list Issue; data_json : string }.

(** An awaited promise either fulfils or rejects. *)
Inductive outcome (A : Type) : Type :=
| Returned (a : A)
| Thrown (e : string).
Arguments Returned {A} a.
Arguments Thrown {A} e.

(** A paginated listing: the answer to the first request and the answers
    behind each successive [rel="next"] link. *)
Record Listing := {
  first_page : outcome (list Comment);
  next_pages : list (outcome (list Comment))
}.

(** The REST client: what the platform answers to each request. *)
Record Octokit := {
  search_issuesAndPullRequests : string -> outcome SearchData;
  issues_listComments : Repo -> Z -> Listing;
  repos_listCommentsForCommit : Repo -> string -> Listing;
  issues_createComment : Repo -> Z -> string -> outcome unit;
  issues_updateComment : Repo -> Z -> string -> outcome unit;
  repos_createCommitComment : Repo -> string -> string -> outcome unit;
  repos_updateCommitComment : Repo -> Z -> string -> outcome unit
}.

Record CommentControllerConfig := {
  inputs : Inputs;
  context : Context;
  octokit : Octokit
}.

(** ** Effects *)

Inductive Request :=
| SearchIssuesAndPullRequests (q : string)
| GetIssueComments (r : Repo) (issue_number : Z) (page : nat)
| ListCommentsForCommit (r : Repo) (commit_sha : string) (page : nat)
| IssuesCreateComment (r : Repo) (issue_number : Z) (body : string)
| IssuesUpdateComment (r : Repo) (comment_id : Z) (body : string)
| ReposCreateCommitComment (r : Repo) (commit_sha : string) (body : string)
| ReposUpdateCommitComment (r : Repo) (comment_id : Z) (body : string).

Inductive Event :=
| Debug (msg : string)
| SetFailed (msg : string)
| Rest (r : Request).

(** An [async] computation: the events it performed, in order, and how it
    settled. *)
Definition Async (A : Type) : Type := (list Event * outcome A)%type.

Definition ret {A} (a : A) : Async A := ([], Returned a).

Definition bind {A B} (m : Async A) (k : A -> Async B) : Async B :=
  match snd m with
  | Returned a => ((fst m ++ fst (k a))%list, snd (k a))
  | Thrown e => (fst m, Thrown e)
  end.

Declare Scope async_scope.
Delimit Scope async_scope with async.
Notation "x <- m ;; k" := (bind m (fun x => k))
  (at level 100, m at next level, right associativity) : async_scope.
Notation "m ;; k" := (bind m (fun _ => k))
  (at level 100, right associativity) : async_scope.
Open Scope async_scope.

Definition debug (msg : string) : Async unit := ([Debug msg], Returned tt).
Definition setFailed (msg : string) : Async unit :=
  ([SetFailed msg], Returned tt).

(** [await] of one REST call whose answer is [answer]. *)
Definition request {A} (r : Request) (answer : outcome A) : Async A :=
  ([Rest r], answer).

Definition trace {A} (m : Async A) : list Event := fst m.
Definition settled {A} (m : Async A) : outcome A := snd m.

Definition rest_of (e : Event) : list Request :=
  match e with Rest r => [r] | _ => [] end.

(** The REST requests of a run, in order. *)
Definition requests {A} (m : Async A) : list Request :=
  flat_map rest_of (trace m).

Definition is_search (r : Request) : bool :=
  match r with SearchIssuesAndPullRequests _ => true | _ => false end.
Definition is_listing (r : Request) : bool :=
  match r with
  | GetIssueComments _ _ _ | ListCommentsForCommit _ _ _ => true
  | _ => false
  end.
Definition is_create (r : Request) : bool :=
  match r with
  | IssuesCreateComment _ _ _ | ReposCreateCommitComment _ _ _ => true
  | _ => false
  end.
Definition is_update (r : Request) : bool :=
  match r with
  | IssuesUpdateComment _ _ _ | ReposUpdateCommitComment _ _ _ => true
  | _ => false
  end.
Definition is_write (r : Request) : bool := is_create r || is_update r.

(** ** Pagination ([octokit.paginate] and [octokit.paginate.iterator]) *)

(** [octokit.paginate(route, params)]: requests every page in turn and
    concatenates the data. *)
Fixpoint paginate_from (req : nat -> Request) (page : nat)
    (cur : outcome (list Comment)) (next : list (outcome (list Comment)))
    : Async (list Comment) :=
  data <- request (req page) cur ;;
  match next with
  | [] => ret data
  | p :: next' =>
      more <- paginate_from req (S page) p next' ;;
      ret (data ++ more)%list
  end.

Definition paginate (req : nat -> Request) (l : Listing)
    : Async (list Comment) :=
  paginate_from req 1%nat (first_page l) (next_pages l).

(** ** The controller *)

Definition hashString (str : string) : string := Md5.hexdigest str.

(** [comment.body?.includes(tag)], as a condition. *)
Definition body_includes (tag : string) (comment : Comment) : bool :=
  match body comment with
  | Some b => Js.includes b tag
  | None => false
  end.

Definition getCommentTag (config : CommentControllerConfig) : string :=
  let i := inputs config in
  let options :=
    [ ("cdktfVersion", cdktfVersion i);
      ("terraformVersion", terraformVersion i);
      ("workingDirectory", workingDirectory i);
      ("stackName", stackName i);
      ("mode", mode i) ] in
  let optionsHash := hashString (Js.JSON_stringify options) in
  "<!-- terraform cdk action for options with hash " ++ optionsHash ++ " -->".

Definition getPullNumber (config : CommentControllerConfig)
    : Async (option Z) :=
  let context := context config in
  let direct := option_map number (pull_request (payload context)) in
  if Js.truthy_opt Js.truthy_number direct then ret direct
  else
    debug "Not running on a PR, looking for a pull request number via search" ;;
    let full :=
      match repository (payload context) with
      | Some r => full_name r
      | None => None
      end in
    if negb (Js.truthy_opt Js.truthy_string full) then
      debug "Could not identify repository name, skipping comment on PR" ;;
      ret None
    else
      let q :=
        "is:pr repo:" ++ Js.template full ++ " sha:"
          ++ Js.template (sha context) in
      result <- request (SearchIssuesAndPullRequests q)
                  (search_issuesAndPullRequests (octokit config) q) ;;
      debug ("Searched for '" ++ q ++ "', got " ++ data_json result) ;;
      match items result with
      | first :: _ => ret (Some (number first))
      | [] => ret None
      end.

Definition fetchPreviousPrComment (octokit : Octokit) (repo : Repo)
    (pull_number : Z) (tag : string) : Async (option Comment) :=
  commentList <- paginate (GetIssueComments repo pull_number)
                   (issues_listComments octokit repo pull_number) ;;
  ret (find (body_includes tag) commentList).

(** The [for await] loop: one request per iteration, the page scanned in
    order, and the loop left as soon as a comment was picked. *)
Fixpoint scan_pages (req : nat -> Request) (tag : string) (page : nat)
    (cur : outcome (list Comment)) (next : list (outcome (list Comment)))
    : Async (option Comment) :=
  comments <- request (req page) cur ;;
  match find (body_includes tag) comments with
  | Some comment => ret (Some comment)
  | None =>
      match next with
      | [] => ret None
      | p :: next' => scan_pages req tag (S page) p next'
      end
  end.

Definition fetchPreviousCommitComment (octokit : Octokit) (repo : Repo)
    (commit_sha : string) (tag : string) : Async (option Comment) :=
  let l := repos_listCommentsForCommit octokit repo commit_sha in
  scan_pages (ListCommentsForCommit repo commit_sha) tag 1%nat
    (first_page l) (next_pages l).

Definition postCommentOnPr (config : CommentControllerConfig)
    (message : string) : Async unit :=
  let inputs := inputs config in
  let octokit := octokit config in
  let context := context config in
  pull_number <- getPullNumber config ;;
  let not_identified :=
    debug "Not commenting on PR since it could not be identified" in
  match pull_number with
  | None => not_identified
  | Some pull_number =>
      if negb (Js.truthy_number pull_number) then not_identified
      else
        let tag := getCommentTag config in
        let messageWithTag := tag ++ Js.LF ++ message in
        previousComment <-
          (if updateComment inputs then
             fetchPreviousPrComment octokit (context_repo context)
               pull_number tag
           else ret None) ;;
        match previousComment with
        | Some previousComment =>
            debug "Updating previous comment" ;;
            request
              (IssuesUpdateComment (context_repo context)
                 (id previousComment) messageWithTag)
              (issues_updateComment octokit (context_repo context)
                 (id previousComment) messageWithTag)
        | None =>
            debug "Adding new comment" ;;
            request
              (IssuesCreateComment (context_repo context) pull_number
                 messageWithTag)
              (issues_createComment octokit (context_repo context)
                 pull_number messageWithTag)
        end
  end.

Definition postCommentOnCommit (config : CommentControllerConfig)
    (message : string) : Async unit :=
  let inputs := inputs config in
  let octokit := octokit config in
  let context := context config in
  match sha context with
  | Some commit_sha =>
      if negb (Js.truthy_string commit_sha) then
        debug "Not commenting on commit because it has been removed"
      else
        let tag := getCommentTag config in
        let messageWithTag := tag ++ Js.LF ++ message in
        previousComment <-
          (if updateComment inputs then
             fetchPreviousCommitComment octokit (context_repo context)
               commit_sha tag
           else ret None) ;;
        match previousComment with
        | Some previousComment =>
            debug "Updating previous comment" ;;
            request
              (ReposUpdateCommitComment (context_repo context)
                 (id previousComment) messageWithTag)
              (repos_updateCommitComment octokit (context_repo context)
                 (id previousComment) messageWithTag)
        | None =>
            debug "Adding new comment" ;;
            request
              (ReposCreateCommitComment (context_repo context) commit_sha
                 messageWithTag)
              (repos_createCommitComment octokit (context_repo context)
                 commit_sha messageWithTag)
        end
  | None => debug "Not commenting on commit because it has been removed"
  end.

Definition postComment (config : CommentControllerConfig)
    (message : string) : Async unit :=
  let inputs := inputs config in
  if String.eqb (commentMode inputs) "none" then
    debug "Not commenting on PR by configuration"
  else if String.eqb (commentMode inputs) "pr" then
    postCommentOnPr config message
  else if String.eqb (commentMode inputs) "commit" then
    postCommentOnCommit config message
  else
    setFailed ("Unrecognized comment mode " ++ commentMode inputs).

(** ** Vocabulary of the properties *)

(** Where a comment goes: a pull request or a commit. *)
Inductive Target :=
| OnPr (pull_number : Z)
| OnCommit (commit_sha : string).

(** The platform answers every page of the listing, with [pages]. *)
Definition answers (l : Listing) (pages : list (list Comment)) : Prop :=
  first_page l :: next_pages l = map Returned pages.

(** The run is routed to [t] and gets past the guard of its path. *)
Definition resolves (config : CommentControllerConfig) (t : Target) : Prop :=
  match t with
  | OnPr n =>
      commentMode (inputs config) = "pr" /\
      settled (getPullNumber config) = Returned (Some n) /\
      Js.truthy_number n = true
  | OnCommit s =>
      commentMode (inputs config) = "commit" /\
      sha (context config) = Some s /\
      Js.truthy_string s = true
  end.

(** The comments of the target, as the platform lists them. *)
Definition listing_of (config : CommentControllerConfig) (t : Target)
    : Listing :=
  match t with
  | OnPr n =>
      issues_listComments (octokit config) (context_repo (context config)) n
  | OnCommit s =>
      repos_listCommentsForCommit (octokit config)
        (context_repo (context config)) s
  end.

Definition listing_request (config : CommentControllerConfig) (t : Target)
    (page : nat) : Request :=
  match t with
  | OnPr n => GetIssueComments (context_repo (context config)) n page
  | OnCommit s => ListCommentsForCommit (context_repo (context config)) s page
  end.

Definition update_of (config : CommentControllerConfig) (t : Target)
    (comment_id : Z) (body : string) : Request :=
  match t with
  | OnPr _ =>
      IssuesUpdateComment (context_repo (context config)) comment_id body
  | OnCommit _ =>
      ReposUpdateCommitComment (context_repo (context config)) comment_id body
  end.

Definition create_of (config : CommentControllerConfig) (t : Target)
    (body : string) : Request :=
  match t with
  | OnPr n => IssuesCreateComment (context_repo (context config)) n body
  | OnCommit s => ReposCreateCommitComment (context_repo (context config)) s body
  end.

(** The body that is written: the tag, a line break, the message. *)
Definition tagged (config : CommentControllerConfig) (message : string)
    : string :=
  getCommentTag config ++ Js.LF ++ message.

(** No comment of the page carries the tag. *)
Definition untagged (tag : string) (page : list Comment) : Prop :=
  find (body_includes tag) page = None.

(** The number the triggering event carries, and the repository name. *)
Definition direct_number (config : CommentControllerConfig) : option Z :=
  option_map number (pull_request (payload (context config))).

Definition repository_full_name (config : CommentControllerConfig)
    : option string :=
  match repository (payload (context config)) with
  | Some r => full_name r
  | None => None
  end.

(** The events of requesting [count] successive pages, from [from]. *)
Definition page_events (req : nat -> Request) (from count : nat)
    : list Event :=
  map (fun k => Rest (req k)) (seq from count).

Definition page_requests (req : nat -> Request) (from count : nat)
    : list Request :=
  map req (seq from count).

(** How many pages the commit scan reads when every page is answered:
    up to and including the first page with a tagged comment. *)
Fixpoint pages_scanned (tag : string) (pages : list (list Comment)) : nat :=
  match pages with
  | [] => 0
  | p :: rest =>
      match find (body_includes tag) p with
      | Some _ => 1
      | None => S (pages_scanned tag rest)
      end
  end.

(** The query of the fall-back search. *)
Definition search_query (config : CommentControllerConfig) (fn : string)
    : string :=
  "is:pr repo:" ++ fn ++ " sha:" ++ Js.template (sha (context config)).

(** The requests that resolve the target: the fall-back search, if any. *)
Definition resolution_requests (config : CommentControllerConfig)
    (t : Target) : list Request :=
  match t with
  | OnPr _ => requests (getPullNumber config)
  | OnCommit _ => []
  end.

(** The requests of the previous-comment lookup when the listing answers
    [pages]: every page on a pull request, the scanned ones on a commit. *)
Definition lookup_requests (config : CommentControllerConfig) (t : Target)
    (pages : list (list Comment)) : list Request :=
  page_requests (listing_request config t) 1
    (match t with
     | OnPr _ => List.length pages
     | OnCommit _ => pages_scanned (getCommentTag config) pages
     end).

(** The one write that follows the lookup. *)
Definition write_of (config : CommentControllerConfig) (t : Target)
    (previousComment : option Comment) (message : string) : Request :=
  match previousComment with
  | Some c => update_of config t (id c) (tagged config message)
  | None => create_of config t (tagged config message)
  end.

(** Either scan for the previous comment, by target. *)
Definition previous_comment_scan (octokit : Octokit) (repo : Repo)
    (t : Target) (tag : string) : Async (option Comment) :=
  match t with
  | OnPr n => fetchPreviousPrComment octokit repo n tag
  | OnCommit s => fetchPreviousCommitComment octokit repo s tag
  end.

Definition scanned_listing (octokit : Octokit) (repo : Repo) (t : Target)
    : Listing :=
  match t with
  | OnPr n => issues_listComments octokit repo n
  | OnCommit s => repos_listCommentsForCommit octokit repo s
  end.

(** No pull-request number, or no commit, to comment on. *)
Definition unresolvable (config : CommentControllerConfig) : Prop :=
  (commentMode (inputs config) = "pr" /\
   Js.truthy_opt Js.truthy_number (direct_number config) = false /\
   (Js.truthy_opt Js.truthy_string (repository_full_name config) = false \/
    exists fn data,
      repository_full_name config = Some fn /\
      search_issuesAndPullRequests (octokit config) (search_query config fn)
        = Returned data /\
      items data = []))
  \/
  (commentMode (inputs config) = "commit" /\
   Js.truthy_opt Js.truthy_string (sha (context config)) = false).



(** ** Scenarios *)

Module Scenario.

Definition the_inputs (commentMode : string) (updateComment : bool)
    : Inputs :=
  {| commentMode := commentMode;
     updateComment := updateComment;
     cdktfVersion := "0.20.0";
     terraformVersion := "1.7.0";
     workingDirectory := "./";
     stackName := "my-stack";
     mode := "plan-only" |}.

Definition the_tag : string :=
  "<!-- terraform cdk action for options with hash 5564dec32e112909f4e618f2b40622dc -->".

Definition the_repo : Repo := {| owner := "acme"; repo := "infra" |}.

Definition one_page (comments : list Comment) : Listing :=
  {| first_page := Returned comments; next_pages := [] |}.

(** A platform that answers the search with [hits], lists [on_pr] on
    every pull request and [on_commit] on every commit, and accepts
    every write. *)
Definition platform (hits : list Issue) (on_pr on_commit : Listing)
    : Octokit :=
  {| search_issuesAndPullRequests :=
       fun _ => Returned {| items := hits; data_json := "{}" |};
     issues_listComments := fun _ _ => on_pr;
     repos_listCommentsForCommit := fun _ _ => on_commit;
     issues_createComment := fun _ _ _ => Returned tt;
     issues_updateComment := fun _ _ _ => Returned tt;
     repos_createCommitComment := fun _ _ _ => Returned tt;
     repos_updateCommitComment := fun _ _ _ => Returned tt |}.

(** A platform whose every answer is a rejection. *)
Definition unreachable : Octokit :=
  {| search_issuesAndPullRequests := fun _ => Thrown "HttpError";
     issues_listComments :=
       fun _ _ => {| first_page := Thrown "HttpError"; next_pages := [] |};
     repos_listCommentsForCommit :=
       fun _ _ => {| first_page := Thrown "HttpError"; next_pages := [] |};
     issues_createComment := fun _ _ _ => Thrown "HttpError";
     issues_updateComment := fun _ _ _ => Thrown "HttpError";
     repos_createCommitComment := fun _ _ _ => Thrown "HttpError";
     repos_updateCommitComment := fun _ _ _ => Thrown "HttpError" |}.

Definition event (pr : option Z) (fn : option string) (sha : option string)
    : Context :=
  {| payload :=
       {| pull_request := option_map Build_Issue pr;
          repository := option_map (fun n => {| full_name := Some n |}) fn |};
     sha := sha;
     context_repo := the_repo |}.

Definition untagged_comment (i : Z) : Comment :=
  {| id := i; body := Some "LGTM" |}.

Definition bodyless_comment (i : Z) : Comment :=
  {| id := i; body := None |}.

Definition tagged_comment (i : Z) : Comment :=
  {| id := i; body := Some (the_tag ++ Js.LF ++ "an earlier run") |}.

(** Commit "abc123", update enabled, a tagged comment with id 7 on the
    first page; the page behind it would be rejected. *)
Definition commit_with_previous : CommentControllerConfig :=
  {| inputs := the_inputs "commit" true;
     context := event None (Some "acme/infra") (Some "abc123");
     octokit :=
       platform []
         (one_page [])
         {| first_page := Returned [bodyless_comment 3; tagged_comment 7;
                                   tagged_comment 9];
            next_pages := [Thrown "HttpError"] |} |}.

(** The same, with every page answered. *)
Definition commit_with_previous_listed : CommentControllerConfig :=
  {| inputs := the_inputs "commit" true;
     context := event None (Some "acme/infra") (Some "abc123");
     octokit :=
       platform []
         (one_page [])
         {| first_page := Returned [bodyless_comment 3; tagged_comment 7];
            next_pages := [Returned [untagged_comment 8]] |} |}.

(** Two pages without a tagged comment before the page that has two;
    the page behind that one would be rejected. *)
Definition commit_previous_on_third_page : CommentControllerConfig :=
  {| inputs := the_inputs "commit" true;
     context := event None (Some "acme/infra") (Some "abc123");
     octokit :=
       platform []
         (one_page [])
         {| first_page := Returned [untagged_comment 1; bodyless_comment 2];
            next_pages :=
              [Returned [];
               Returned [bodyless_comment 3; tagged_comment 7;
                         tagged_comment 9];
               Thrown "HttpError"] |} |}.

(** Pull request 42 given by the event, update enabled, two pages of
    comments without the tag. *)
Definition pr_without_previous : CommentControllerConfig :=
  {| inputs := the_inputs "pr" true;
     context := event (Some 42) (Some "acme/infra") (Some "abc123");
     octokit :=
       platform []
         {| first_page := Returned [untagged_comment 1; bodyless_comment 2];
            next_pages := [Returned [untagged_comment 3]] |}
         (one_page []) |}.

(** A push event: the pull request is found by search. *)
Definition pr_by_search (hits : list Z) (updateComment : bool)
    : CommentControllerConfig :=
  {| inputs := the_inputs "pr" updateComment;
     context := event None (Some "acme/infra") (Some "abc123");
     octokit :=
       platform (map Build_Issue hits)
         (one_page [untagged_comment 1; tagged_comment 5])
         (one_page []) |}.

(** Any mode, on a platform that rejects everything. *)
Definition offline (commentMode : string) (pr : option Z)
    (fn sha : option string) : CommentControllerConfig :=
  {| inputs := the_inputs commentMode true;
     context := event pr fn sha;
     octokit := unreachable |}.

End Scenario.

(** ** Vocabulary of the run as a whole *)

(** Where [postComment] ends up, read off its tests in order. *)
Inductive Route :=
| Silent
| Unrecognized
| PrUnresolved
| CommitRemoved
| Resolved (t : Target).

Definition route (config : CommentControllerConfig) : Route :=
  if String.eqb (commentMode (inputs config)) "none" then Silent
  else if String.eqb (commentMode (inputs config)) "pr" then
    match settled (getPullNumber config) with
    | Returned (Some n) =>
        if Js.truthy_number n then Resolved (OnPr n) else PrUnresolved
    | _ => PrUnresolved
    end
  else if String.eqb (commentMode (inputs config)) "commit" then
    match sha (context config) with
    | Some s => if Js.truthy_string s then Resolved (OnCommit s)
                else CommitRemoved
    | None => CommitRemoved
    end
  else Unrecognized.

(** The events that resolve the target. *)
Definition resolution_trace (config : CommentControllerConfig) (t : Target)
    : list Event :=
  match t with
  | OnPr _ => trace (getPullNumber config)
  | OnCommit _ => []
  end.

(** The previous-comment lookup of either path. *)
Definition lookup (config : CommentControllerConfig) (t : Target)
    : Async (option Comment) :=
  if updateComment (inputs config) then
    previous_comment_scan (octokit config) (context_repo (context config)) t
      (getCommentTag config)
  else ret None.

(** What the platform answers to a write. *)
Definition write_answer (octokit : Octokit) (r : Request)
    : option (outcome unit) :=
  match r with
  | IssuesCreateComment repo n b => Some (issues_createComment octokit repo n b)
  | IssuesUpdateComment repo i b => Some (issues_updateComment octokit repo i b)
  | ReposCreateCommitComment repo s b =>
      Some (repos_createCommitComment octokit repo s b)
  | ReposUpdateCommitComment repo i b =>
      Some (repos_updateCommitComment octokit repo i b)
  | _ => None
  end.

Definition answer_or_void (o : option (outcome unit)) : outcome unit :=
  match o with Some a => a | None => Returned tt end.

(** The end of either path: the log line and the one write. *)
Definition issue_write (config : CommentControllerConfig) (t : Target)
    (previousComment : option Comment) (message : string) : Async unit :=
  (match previousComment with
   | Some _ => debug "Updating previous comment"
   | None => debug "Adding new comment"
   end) ;;
  request (write_of config t previousComment message)
    (answer_or_void
       (write_answer (octokit config)
          (write_of config t previousComment message))).

Definition write_phase (config : CommentControllerConfig) (t : Target)
    (message : string) : Async unit :=
  previousComment <- lookup config t ;;
  issue_write config t previousComment message.

(** The body of a write. *)
Definition write_body (r : Request) : option string :=
  match r with
  | IssuesCreateComment _ _ b | IssuesUpdateComment _ _ b
  | ReposCreateCommitComment _ _ b | ReposUpdateCommitComment _ _ b => Some b
  | _ => None
  end.

(** The comment an update goes to. *)
Definition updated_id (r : Request) : option Z :=
  match r with
  | IssuesUpdateComment _ i _ | ReposUpdateCommitComment _ i _ => Some i
  | _ => None
  end.

(** The repository a request names, if it names one. *)
Definition request_repo (r : Request) : option Repo :=
  match r with
  | SearchIssuesAndPullRequests _ => None
  | GetIssueComments repo _ _ | ListCommentsForCommit repo _ _
  | IssuesCreateComment repo _ _ | IssuesUpdateComment repo _ _
  | ReposCreateCommitComment repo _ _ | ReposUpdateCommitComment repo _ _ =>
      Some repo
  end.

(** Requests on issue comments, and requests on commit comments. *)
Definition on_issue_comments (r : Request) : bool :=
  match r with
  | GetIssueComments _ _ _ | IssuesCreateComment _ _ _
  | IssuesUpdateComment _ _ _ => true
  | _ => false
  end.

Definition on_commit_comments (r : Request) : bool :=
  match r with
  | ListCommentsForCommit _ _ _ | ReposCreateCommitComment _ _ _
  | ReposUpdateCommitComment _ _ _ => true
  | _ => false
  end.

(** A platform that answers every request. *)
Definition healthy (octokit : Octokit) : Prop :=
  (forall q, exists data,
     search_issuesAndPullRequests octokit q = Returned data) /\
  (forall repo t, exists pages, answers (scanned_listing octokit repo t) pages)
  /\
  (forall r a, write_answer octokit r = Some a -> a = Returned tt).

(** A rejection [e] that the platform gave to some request of the run. *)
Definition rejected_by_platform (config : CommentControllerConfig)
    (e : string) : Prop :=
  (exists q, search_issuesAndPullRequests (octokit config) q = Thrown e) \/
  (exists t,
     In (Thrown e)
        (first_page (listing_of config t) :: next_pages (listing_of config t)))
  \/
  (exists r, write_answer (octokit config) r = Some (Thrown e)).

(** The write of a resolved run: none if the lookup was rejected. *)
Definition written (config : CommentControllerConfig) (t : Target)
    (message : string) : list Request :=
  match settled (lookup config t) with
  | Returned previousComment => [write_of config t previousComment message]
  | Thrown _ => []
  end.

(** ** Vocabulary of the tag *)

Fixpoint all_chars (p : ascii -> bool) (s : string) : bool :=
  match s with
  | EmptyString => true
  | String c s' => p c && all_chars p s'
  end.

(** A digit or a letter from [a] to [f]. *)
Definition is_hex_lower (c : ascii) : bool :=
  let n := Js.code c in
  ((48 <=? n) && (n <=? 57)) || ((97 <=? n) && (n <=? 102)).

Definition tag_prefix : string :=
  "<!-- terraform cdk action for options with hash ".

Definition tag_suffix : string := " -->".

(** The text that is hashed: the five identity fields, serialized. *)
Definition options_json (config : CommentControllerConfig) : string :=
  Js.JSON_stringify
    [ ("cdktfVersion", cdktfVersion (inputs config));
      ("terraformVersion", terraformVersion (inputs config));
      ("workingDirectory", workingDirectory (inputs config));
      ("stackName", stackName (inputs config));
      ("mode", mode (inputs config)) ].

(** Reads one escaped character off a JSON string body: [None] at the
    closing quote.  Used to show that the serialization is unambiguous. *)
Definition hex_value (c : ascii) : Z :=
  let n := Js.code c in if n <? 58 then n - 48 else n - 87.

Definition unescape_char (s : string) : option (ascii * string) :=
  match s with
  | EmptyString => None
  | String c rest =>
      if Js.code c =? 34 then None
      else if Js.code c =? 92 then
        match rest with
        | EmptyString => None
        | String x rest' =>
            if Js.code x =? 98 then Some (ascii_of_nat 8, rest')
            else if Js.code x =? 116 then Some (ascii_of_nat 9, rest')
            else if Js.code x =? 110 then Some (ascii_of_nat 10, rest')
            else if Js.code x =? 102 then Some (ascii_of_nat 12, rest')
            else if Js.code x =? 114 then Some (ascii_of_nat 13, rest')
            else if Js.code x =? 117 then
              match rest' with
              | String _ (String _ (String h (String l rest''))) =>
                  Some (ascii_of_nat
                          (Z.to_nat (16 * hex_value h + hex_value l)),
                        rest'')
              | _ => None
              end
            else Some (x, rest')
        end
      else Some (c, rest)
  end.

(** A request without the text it carries. *)
Definition strip_body (r : Request) : Request :=
  match r with
  | IssuesCreateComment repo n _ => IssuesCreateComment repo n ""
  | IssuesUpdateComment repo i _ => IssuesUpdateComment repo i ""
  | ReposCreateCommitComment repo s _ => ReposCreateCommitComment repo s ""
  | ReposUpdateCommitComment repo i _ => ReposUpdateCommitComment repo i ""
  | _ => r
  end.

(** ** Further scenarios *)

Module Cases.

(** Pull request 42, update enabled; the first page has a tagged comment
    with id 5, a second page follows. *)
Definition pr_tag_on_first_page : CommentControllerConfig :=
  {| inputs := Scenario.the_inputs "pr" true;
     context := Scenario.event (Some 42) (Some "acme/infra") (Some "abc123");
     octokit :=
       Scenario.platform []
         {| first_page := Returned [Scenario.tagged_comment 5];
            next_pages := [Returned [Scenario.untagged_comment 6]] |}
         (Scenario.one_page []) |}.

(** The same, but the second page is rejected. *)
Definition pr_rejected_second_page : CommentControllerConfig :=
  {| inputs := Scenario.the_inputs "pr" true;
     context := Scenario.event (Some 42) (Some "acme/infra") (Some "abc123");
     octokit :=
       Scenario.platform []
         {| first_page := Returned [Scenario.tagged_comment 5];
            next_pages := [Thrown "HttpError"; Returned []] |}
         (Scenario.one_page []) |}.

Definition tagged_body (message : string) : string :=
  Scenario.the_tag ++ Js.LF ++ message.

(** A push event whose payload names another repository than the one the
    run works on; the search finds pull request 17. *)
Definition pr_of_other_repository : CommentControllerConfig :=
  {| inputs := Scenario.the_inputs "pr" false;
     context := Scenario.event None (Some "someone/else") (Some "abc123");
     octokit :=
       Scenario.platform [ {| number := 17 |} ] (Scenario.one_page [])
         (Scenario.one_page []) |}.

End Cases.


(** The platform answered request [r] of the run with the rejection [e]. *)
Definition rejects (octokit : Octokit) (r : Request) (e : string) : Prop :=
  match r with
  | SearchIssuesAndPullRequests q =>
      search_issuesAndPullRequests octokit q = Thrown e
  | GetIssueComments repo n page =>
      nth_error
        (first_page (issues_listComments octokit repo n)
           :: next_pages (issues_listComments octokit repo n))
        (page - 1)
      = Some (Thrown e)
  | ListCommentsForCommit repo s page =>
      nth_error
        (first_page (repos_listCommentsForCommit octokit repo s)
           :: next_pages (repos_listCommentsForCommit octokit repo s))
        (page - 1)
      = Some (Thrown e)
  | _ => write_answer octokit r = Some (Thrown e)
  end.

(** ** The monad *)

Lemma trace_bind {A B} (m : Async A) (k : A -> Async B) :
  trace (bind m k) =
  match settled m with
  | Returned a => (trace m ++ trace (k a))%list
  | Thrown _ => trace m
  end.
Proof. unfold bind, trace, settled. destruct (snd m); reflexivity. Qed.

Lemma settled_bind {A B} (m : Async A) (k : A -> Async B) :
  settled (bind m k) =
  match settled m with
  | Returned a => settled (k a)
  | Thrown e => Thrown e
  end.
Proof. unfold bind, settled. destruct (snd m); reflexivity. Qed.

Lemma requests_bind {A B} (m : Async A) (k : A -> Async B) :
  requests (bind m k) =
  match settled m with
  | Returned a => (requests m ++ requests (k a))%list
  | Thrown _ => requests m
  end.
Proof.
  unfold requests. rewrite trace_bind.
  destruct (settled m); [apply flat_map_app | reflexivity].
Qed.

Lemma requests_of_rests {A} (m : Async A) (rs : list Request) :
  trace m = map Rest rs -> requests m = rs.
Proof.
  unfold requests. intros ->. induction rs as [|r rs IH]; simpl; congruence.
Qed.

(** ** Lists of pages *)

Lemma find_app_none {A} (f : A -> bool) (l l' : list A) :
  find f l = None -> find f (l ++ l') = find f l'.
Proof.
  induction l as [|x l IH]; simpl; [reflexivity|].
  destruct (f x); [discriminate | exact IH].
Qed.

Lemma find_app_some {A} (f : A -> bool) (l l' : list A) c :
  find f l = Some c -> find f (l ++ l') = Some c.
Proof.
  induction l as [|x l IH]; simpl; [discriminate|].
  destruct (f x); [trivial | exact IH].
Qed.

Lemma find_of_In {A} (f : A -> bool) (l : list A) c :
  In c l -> f c = true -> exists c', find f l = Some c'.
Proof.
  intros Hin Hf. destruct (find f l) as [c'|] eqn:E; [eauto|].
  rewrite (find_none _ _ E _ Hin) in Hf. discriminate.
Qed.

(** ** Pagination *)

Lemma requests_page_events {A} (m : Async A) req from count :
  trace m = page_events req from count ->
  requests m = page_requests req from count.
Proof.
  intros H. apply requests_of_rests. rewrite H.
  unfold page_events, page_requests. now rewrite map_map.
Qed.

Lemma page_events_S req from count :
  page_events req from (S count) =
  Rest (req from) :: page_events req (S from) count.
Proof. reflexivity. Qed.

Lemma paginate_from_answers req : forall ps n d,
  paginate_from req n (Returned d) (map Returned ps) =
  (page_events req n (S (List.length ps)), Returned (List.concat (d :: ps))).
Proof.
  induction ps as [|p ps IH]; intros n d.
  - cbn. now rewrite app_nil_r.
  - cbn [map paginate_from]. rewrite IH.
    rewrite (page_events_S req n). cbn. now rewrite app_nil_r.
Qed.

Lemma paginate_from_thrown req : forall next n cur e,
  settled (paginate_from req n cur next) = Thrown e ->
  In (Thrown e) (cur :: next).
Proof.
  induction next as [|p next IH]; intros n cur e.
  - destruct cur; cbn; intros [= <-]. now left.
  - destruct cur as [d|e'].
    + cbn [paginate_from]. rewrite settled_bind. cbn [settled request snd].
      rewrite settled_bind.
      destruct (settled (paginate_from req (S n) p next)) eqn:E;
        [discriminate|].
      intros [= <-]. right. eapply IH. exact E.
    + cbn. intros [= <-]. now left.
Qed.

Lemma find_first {A} (f : A -> bool) (before after : list A) c :
  Forall (fun x => f x = false) before -> f c = true ->
  find f (before ++ c :: after) = Some c.
Proof.
  induction 1 as [|x before Hx _ IH]; intros Hc; simpl.
  - now rewrite Hc.
  - rewrite Hx. auto.
Qed.

Lemma scan_pages_answers req tag : forall ps n d,
  scan_pages req tag n (Returned d) (map Returned ps) =
  (page_events req n (pages_scanned tag (d :: ps)),
   Returned (find (body_includes tag) (List.concat (d :: ps)))).
Proof.
  induction ps as [|p ps IH]; intros n d.
  - cbn. rewrite app_nil_r.
    destruct (find (body_includes tag) d); reflexivity.
  - cbn [map scan_pages]. unfold bind at 1. cbn [request fst snd].
    cbn [List.concat pages_scanned] in *.
    destruct (find (body_includes tag) d) as [c|] eqn:Hd.
    + now rewrite (find_app_some _ _ _ _ Hd).
    + rewrite (find_app_none _ _ _ Hd), IH. reflexivity.
Qed.

Lemma scan_pages_hit req tag : forall pre n cur next p post c,
  cur :: next = (map Returned pre ++ Returned p :: post)%list ->
  Forall (untagged tag) pre ->
  find (body_includes tag) p = Some c ->
  scan_pages req tag n cur next =
  (page_events req n (S (List.length pre)), Returned (Some c)).
Proof.
  induction pre as [|d pre IH]; intros n cur next p post c Hl Hpre Hp.
  - cbn in Hl. injection Hl as -> ->.
    destruct post; cbn; now rewrite Hp.
  - cbn in Hl. injection Hl as -> ->.
    inversion Hpre as [|? ? Hd Hpre']; subst. unfold untagged in Hd.
    destruct pre as [|d' pre].
    + cbn [map app scan_pages]. unfold bind at 1. cbn [request fst snd].
      rewrite Hd.
      rewrite (IH (S n) (Returned p) post p post c eq_refl Hpre' Hp).
      reflexivity.
    + cbn [map app scan_pages]. unfold bind at 1. cbn [request fst snd].
      rewrite Hd.
      rewrite (IH (S n) (Returned d')
                 (map Returned pre ++ Returned p :: post)%list p post c
                 eq_refl Hpre' Hp).
      reflexivity.
Qed.

Lemma scan_pages_thrown req tag : forall next n cur e,
  settled (scan_pages req tag n cur next) = Thrown e ->
  In (Thrown e) (cur :: next).
Proof.
  induction next as [|p next IH]; intros n cur e.
  - destruct cur as [d|e']; cbn.
    + destruct (find (body_includes tag) d); discriminate.
    + intros [= <-]. now left.
  - destruct cur as [d|e'].
    + cbn [scan_pages]. rewrite settled_bind. cbn [settled request snd].
      destruct (find (body_includes tag) d); [discriminate|].
      intros H. right. eapply IH. exact H.
    + cbn. intros [= <-]. now left.
Qed.

Lemma scan_pages_picks req tag : forall next n cur c,
  settled (scan_pages req tag n cur next) = Returned (Some c) ->
  body_includes tag c = true.
Proof.
  induction next as [|p next IH]; intros n cur c.
  - destruct cur as [d|e']; cbn; [|discriminate].
    destruct (find (body_includes tag) d) as [c'|] eqn:E; cbn;
      [|discriminate].
    intros [= <-]. now destruct (find_some _ _ E).
  - destruct cur as [d|e']; [|discriminate].
    cbn [scan_pages]. rewrite settled_bind. cbn [settled request snd].
    destruct (find (body_includes tag) d) as [c'|] eqn:E.
    + cbn. intros [= <-]. now destruct (find_some _ _ E).
    + apply IH.
Qed.

(** ** Target resolution *)

Arguments getCommentTag : simpl never.

Lemma getPullNumber_direct config :
  Js.truthy_opt Js.truthy_number (direct_number config) = true ->
  getPullNumber config = ([], Returned (direct_number config)).
Proof.
  unfold getPullNumber, direct_number. intros ->. reflexivity.
Qed.

Lemma getPullNumber_no_repository config :
  Js.truthy_opt Js.truthy_number (direct_number config) = false ->
  Js.truthy_opt Js.truthy_string (repository_full_name config) = false ->
  getPullNumber config =
  ([Debug "Not running on a PR, looking for a pull request number via search";
    Debug "Could not identify repository name, skipping comment on PR"],
   Returned None).
Proof.
  unfold getPullNumber, direct_number, repository_full_name.
  intros -> ->. reflexivity.
Qed.

Lemma getPullNumber_search config fn :
  Js.truthy_opt Js.truthy_number (direct_number config) = false ->
  repository_full_name config = Some fn ->
  Js.truthy_string fn = true ->
  getPullNumber config =
  (Debug "Not running on a PR, looking for a pull request number via search"
     :: Rest (SearchIssuesAndPullRequests (search_query config fn))
     :: match search_issuesAndPullRequests (octokit config)
                (search_query config fn) with
        | Returned data =>
            [Debug ("Searched for '" ++ search_query config fn ++ "', got "
                      ++ data_json data)]
        | Thrown _ => []
        end,
   match search_issuesAndPullRequests (octokit config)
           (search_query config fn) with
   | Returned data =>
       Returned match items data with
                | first :: _ => Some (number first)
                | [] => None
                end
   | Thrown e => Thrown e
   end).
Proof.
  unfold getPullNumber, direct_number, repository_full_name.
  intros -> -> Hfn. cbn [Js.truthy_opt Js.template]. rewrite Hfn.
  cbn [negb]. fold (search_query config fn).
  destruct (search_issuesAndPullRequests (octokit config)
              (search_query config fn)) as [data|e]; [|reflexivity].
  unfold bind, debug, request, ret. cbn [fst snd app].
  destruct (items data); reflexivity.
Qed.

Lemma getPullNumber_requests config :
  requests (getPullNumber config) = [] \/
  exists q, requests (getPullNumber config) = [SearchIssuesAndPullRequests q].
Proof.
  destruct (Js.truthy_opt Js.truthy_number (direct_number config)) eqn:Hd.
  - left. now rewrite (getPullNumber_direct _ Hd).
  - destruct (repository_full_name config) as [fn|] eqn:Hr.
    + destruct (Js.truthy_string fn) eqn:Hfn.
      * right. exists (search_query config fn).
        rewrite (getPullNumber_search _ _ Hd Hr Hfn).
        destruct (search_issuesAndPullRequests _ _); reflexivity.
      * left. rewrite (getPullNumber_no_repository _ Hd); [reflexivity|].
        rewrite Hr. exact Hfn.
    + left. rewrite (getPullNumber_no_repository _ Hd); [reflexivity|].
      now rewrite Hr.
Qed.

Lemma resolution_are_searches config t :
  Forall (fun r => is_search r = true) (resolution_requests config t).
Proof.
  destruct t as [n|s]; cbn; [|constructor].
  destruct (getPullNumber_requests config) as [-> | [q ->]];
    repeat constructor.
Qed.

Lemma lookup_are_listings config t pages :
  Forall (fun r => is_listing r = true) (lookup_requests config t pages).
Proof.
  unfold lookup_requests, page_requests. apply Forall_forall.
  intros r Hr. apply in_map_iff in Hr. destruct Hr as (k & <- & _).
  destruct t; reflexivity.
Qed.

Lemma filter_out {A} (f g : A -> bool) (l : list A) :
  Forall (fun r => g r = true) l ->
  (forall r, g r = true -> f r = false) ->
  filter f l = [].
Proof.
  intros Hl Hfg. induction Hl as [|r l Hr _ IH]; cbn; [reflexivity|].
  now rewrite (Hfg r Hr).
Qed.

Lemma search_not_update r : is_search r = true -> is_update r = false.
Proof. destruct r; cbn; congruence. Qed.
Lemma search_not_create r : is_search r = true -> is_create r = false.
Proof. destruct r; cbn; congruence. Qed.
Lemma search_not_listing r : is_search r = true -> is_listing r = false.
Proof. destruct r; cbn; congruence. Qed.
Lemma listing_not_update r : is_listing r = true -> is_update r = false.
Proof. destruct r; cbn; congruence. Qed.
Lemma listing_not_create r : is_listing r = true -> is_create r = false.
Proof. destruct r; cbn; congruence. Qed.
Lemma create_not_listing r : is_create r = true -> is_listing r = false.
Proof. destruct r; cbn; congruence. Qed.

(** ** Dispatch *)

Lemma postComment_pr config message :
  commentMode (inputs config) = "pr" ->
  postComment config message = postCommentOnPr config message.
Proof. unfold postComment. intros ->. reflexivity. Qed.

Lemma postComment_commit config message :
  commentMode (inputs config) = "commit" ->
  postComment config message = postCommentOnCommit config message.
Proof. unfold postComment. intros ->. reflexivity. Qed.

(** ** The two paths, once the target is resolved *)

Lemma answers_inv l pages :
  answers l pages ->
  exists d ps,
    pages = d :: ps /\ first_page l = Returned d /\
    next_pages l = map Returned ps.
Proof.
  unfold answers. destruct pages as [|d ps]; cbn; [discriminate|].
  intros [= -> ->]. eauto.
Qed.

Lemma postComment_requests_create config message t :
  resolves config t ->
  updateComment (inputs config) = false ->
  requests (postComment config message) =
  (resolution_requests config t ++ [write_of config t None message])%list.
Proof.
  destruct t as [n|s]; cbn [resolves]; intros (Hmode & Hres & Ht) Hupd.
  - rewrite (postComment_pr _ _ Hmode). unfold postCommentOnPr.
    rewrite requests_bind, Hres, Ht, Hupd. reflexivity.
  - rewrite (postComment_commit _ _ Hmode). unfold postCommentOnCommit.
    rewrite Hres, Ht, Hupd. reflexivity.
Qed.

Lemma postComment_requests_lookup config message t pages :
  resolves config t ->
  updateComment (inputs config) = true ->
  answers (listing_of config t) pages ->
  requests (postComment config message) =
  (resolution_requests config t ++ lookup_requests config t pages ++
   [write_of config t
      (find (body_includes (getCommentTag config)) (List.concat pages))
      message])%list.
Proof.
  destruct t as [n|s]; cbn [resolves]; intros (Hmode & Hres & Ht) Hupd Hans;
    destruct (answers_inv _ _ Hans) as (d & ps & -> & Hd & Hps);
    cbn [listing_of] in Hd, Hps.
  - rewrite (postComment_pr _ _ Hmode). unfold postCommentOnPr.
    rewrite requests_bind, Hres, Ht, Hupd. cbn [negb]. f_equal.
    unfold fetchPreviousPrComment, paginate.
    rewrite Hd, Hps, paginate_from_answers.
    rewrite requests_bind, settled_bind. cbn [settled snd ret].
    rewrite requests_bind. cbn [settled snd ret].
    unfold lookup_requests. cbn [listing_request].
    erewrite (requests_page_events (page_events _ _ _, _)) by reflexivity.
    change (requests ([], Returned ?x)) with (@nil Request).
    rewrite app_nil_r. f_equal.
    destruct (find _ _); reflexivity.
  - rewrite (postComment_commit _ _ Hmode). unfold postCommentOnCommit.
    rewrite Hres, Ht, Hupd. cbn [negb resolution_requests app].
    unfold fetchPreviousCommitComment.
    rewrite Hd, Hps, scan_pages_answers.
    rewrite requests_bind. cbn [settled snd].
    unfold lookup_requests. cbn [listing_request].
    erewrite (requests_page_events (page_events _ _ _, _)) by reflexivity.
    f_equal.
    destruct (find _ _); reflexivity.
Qed.

(** ** Update or create *)

Lemma filter_lookup_run (f : Request -> bool) config t pages w :
  (forall r, is_search r = true -> f r = false) ->
  (forall r, is_listing r = true -> f r = false) ->
  filter f (resolution_requests config t ++ lookup_requests config t pages
              ++ [w])%list
  = filter f [w].
Proof.
  intros Hs Hl. rewrite !filter_app.
  rewrite (filter_out f is_search _ (resolution_are_searches config t) Hs).
  rewrite (filter_out f is_listing _ (lookup_are_listings config t pages) Hl).
  reflexivity.
Qed.

Lemma filter_create_run (f : Request -> bool) config t w :
  (forall r, is_search r = true -> f r = false) ->
  filter f (resolution_requests config t ++ [w])%list = filter f [w].
Proof.
  intros Hs. rewrite filter_app.
  now rewrite (filter_out f is_search _ (resolution_are_searches config t) Hs).
Qed.





(** C2, amended: with a resolved target, and either [updateComment] unset
    or a listing whose every page the platform answers and none of whose
    comments contains the tag, [postComment] issues
    exactly one create request, on the resolved pull-request number or
    commit SHA and with the tag, a line break and the message as body,
    and no update request. *)
Theorem postComment_creates_comment config message t pages :
  resolves config t ->
  updateComment (inputs config) = false \/
  (answers (listing_of config t) pages /\
   forall c, In c (List.concat pages) ->
             body_includes (getCommentTag config) c = false) ->
  filter is_create (requests (postComment config message)) =
    [create_of config t (getCommentTag config ++ Js.LF ++ message)] /\
  filter is_update (requests (postComment config message)) = [].
Proof.
  intros Hres H.
  destruct (updateComment (inputs config)) eqn:Hupd.
  - destruct H as [H | [Hans Hnone]]; [discriminate|].
    rewrite (postComment_requests_lookup _ message _ _ Hres Hupd Hans).
    destruct (find _ (List.concat pages)) as [c|] eqn:Hfind.
    + destruct (find_some _ _ Hfind) as [Hin Hc].
      rewrite (Hnone c Hin) in Hc. discriminate.
    + rewrite (filter_lookup_run is_update _ _ _ _
                 search_not_update listing_not_update).
      rewrite (filter_lookup_run is_create _ _ _ _
                 search_not_create listing_not_create).
      destruct t; split; reflexivity.
  - rewrite (postComment_requests_create _ message _ Hres Hupd).
    rewrite (filter_create_run is_update _ _ _ search_not_update).
    rewrite (filter_create_run is_create _ _ _ search_not_create).
    destruct t; split; reflexivity.
Qed.

(** C3: the tag depends on the configuration through the five identity
    fields only: two configurations that agree on [cdktfVersion],
    [terraformVersion], [workingDirectory], [stackName] and [mode] have
    the same tag, whatever their other fields, event and platform. *)
Theorem getCommentTag_identity_fields config1 config2 :
  cdktfVersion (inputs config1) = cdktfVersion (inputs config2) ->
  terraformVersion (inputs config1) = terraformVersion (inputs config2) ->
  workingDirectory (inputs config1) = workingDirectory (inputs config2) ->
  stackName (inputs config1) = stackName (inputs config2) ->
  mode (inputs config1) = mode (inputs config2) ->
  getCommentTag config1 = getCommentTag config2.
Proof.
  unfold getCommentTag. intros -> -> -> -> ->. reflexivity.
Qed.

(** C4: with [commentMode] "none", [postComment] only logs: it issues no
    request at all and returns normally. *)
Theorem postComment_none config message :
  commentMode (inputs config) = "none" ->
  trace (postComment config message)
    = [Debug "Not commenting on PR by configuration"] /\
  requests (postComment config message) = [] /\
  settled (postComment config message) = Returned tt.
Proof.
  unfold postComment. intros ->. repeat split.
Qed.

(** ** Unresolvable targets *)

Lemma getPullNumber_unresolved config :
  Js.truthy_opt Js.truthy_number (direct_number config) = false ->
  (Js.truthy_opt Js.truthy_string (repository_full_name config) = false \/
   exists fn data,
     repository_full_name config = Some fn /\
     search_issuesAndPullRequests (octokit config) (search_query config fn)
       = Returned data /\
     items data = []) ->
  settled (getPullNumber config) = Returned None /\
  filter is_write (requests (getPullNumber config)) = [].
Proof.
  intros Hd [Hfn | (fn & data & Hr & Hsearch & Hitems)].
  - now rewrite (getPullNumber_no_repository _ Hd Hfn).
  - destruct (Js.truthy_string fn) eqn:Hfn.
    + rewrite (getPullNumber_search _ _ Hd Hr Hfn), Hsearch, Hitems.
      split; reflexivity.
    + rewrite (getPullNumber_no_repository _ Hd); [split; reflexivity|].
      now rewrite Hr.
Qed.

(** C5: an unresolvable target is a silent no-op.  On the pull-request
    path, with no number in the event and either no repository name or an
    empty search result, [postComment] issues no write (and no listing);
    on the commit path, with an empty or undefined SHA, it issues no
    request at all; either way it returns normally. *)
Theorem postComment_unresolvable config message :
  unresolvable config ->
  settled (postComment config message) = Returned tt /\
  filter is_write (requests (postComment config message)) = [] /\
  filter is_listing (requests (postComment config message)) = [] /\
  (commentMode (inputs config) = "commit" ->
   requests (postComment config message) = []).
Proof.
  intros [(Hmode & Hd & Hnone) | (Hmode & Hsha)].
  - rewrite (postComment_pr _ _ Hmode). unfold postCommentOnPr.
    destruct (getPullNumber_unresolved _ Hd Hnone) as [Hret Hw].
    rewrite settled_bind, requests_bind, Hret.
    change (requests (debug ?m)) with (@nil Request).
    rewrite app_nil_r. repeat split; [exact Hw | | congruence].
    destruct (getPullNumber_requests config) as [-> | [q ->]]; reflexivity.
  - rewrite (postComment_commit _ _ Hmode). unfold postCommentOnCommit.
    destruct (sha (context config)) as [s|]; cbn in Hsha;
      [rewrite Hsha|]; repeat split.
Qed.

(** ** The fall-back search *)



(** ** The commit scan *)

Lemma untagged_of_Forall tag page :
  Forall (fun x => body_includes tag x = false) page -> untagged tag page.
Proof.
  unfold untagged. induction 1 as [|x page Hx _ IH]; cbn; [reflexivity|].
  now rewrite Hx.
Qed.

(** C7: on the commit path with [updateComment] set, when the pages
    before some page carry no tagged comment and that page does, the scan
    requests the pages up to that one and no page behind it, whatever the
    platform would have answered there, and returns the first tagged
    comment of that page, which is the one updated. *)
Theorem commit_scan_short_circuits config message s pre before c after post :
  commentMode (inputs config) = "commit" ->
  updateComment (inputs config) = true ->
  sha (context config) = Some s ->
  Js.truthy_string s = true ->
  first_page (listing_of config (OnCommit s))
    :: next_pages (listing_of config (OnCommit s))
    = (map Returned pre ++ Returned (before ++ c :: after) :: post)%list ->
  Forall (Forall (fun x => body_includes (getCommentTag config) x = false))
    pre ->
  Forall (fun x => body_includes (getCommentTag config) x = false) before ->
  body_includes (getCommentTag config) c = true ->
  fetchPreviousCommitComment (octokit config) (context_repo (context config))
    s (getCommentTag config)
    = (page_events (ListCommentsForCommit (context_repo (context config)) s)
         1 (S (List.length pre)),
       Returned (Some c)) /\
  requests (postComment config message)
    = (page_requests (ListCommentsForCommit (context_repo (context config)) s)
         1 (S (List.length pre))
         ++ [ReposUpdateCommitComment (context_repo (context config)) (id c)
               (getCommentTag config ++ Js.LF ++ message)])%list.
Proof.
  intros Hmode Hupd Hsha Hs Hl Hpre Hbefore Hc.
  set (tag := getCommentTag config) in *.
  set (repo := context_repo (context config)) in *.
  cbn [listing_of] in Hl. fold repo in Hl.
  set (l := repos_listCommentsForCommit (octokit config) repo s) in *.
  assert (Hfetch :
    fetchPreviousCommitComment (octokit config) repo s tag
    = (page_events (ListCommentsForCommit repo s) 1 (S (List.length pre)),
       Returned (Some c))).
  { unfold fetchPreviousCommitComment. fold l.
    eapply scan_pages_hit; [exact Hl | | now apply find_first].
    eapply Forall_impl; [|exact Hpre]. apply untagged_of_Forall. }
  split; [exact Hfetch|].
  rewrite (postComment_commit _ _ Hmode). unfold postCommentOnCommit.
  rewrite Hsha, Hs, Hupd. cbn [negb]. fold tag repo. rewrite Hfetch.
  rewrite requests_bind. cbn [settled snd].
  erewrite (requests_page_events (page_events _ _ _, _)) by reflexivity.
  reflexivity.
Qed.

(** ** Unrecognized modes *)

(** C8: for a [commentMode] other than "none", "pr" and "commit",
    [postComment] reports a failed step that names the mode, issues no
    request, and returns normally. *)
Theorem postComment_unrecognized_mode config message :
  commentMode (inputs config) <> "none" ->
  commentMode (inputs config) <> "pr" ->
  commentMode (inputs config) <> "commit" ->
  trace (postComment config message)
    = [SetFailed ("Unrecognized comment mode " ++ commentMode (inputs config))]
  /\ requests (postComment config message) = []
  /\ settled (postComment config message) = Returned tt.
Proof.
  intros Hnone Hpr Hcommit. unfold postComment.
  apply String.eqb_neq in Hnone, Hpr, Hcommit.
  rewrite Hnone, Hpr, Hcommit. repeat split.
Qed.

(** ** Without update *)

(** C9: with [updateComment] unset, [postComment] issues no listing
    request on either path; its requests are at most one search followed
    by at most one create. *)
Theorem postComment_no_listing_without_update config message :
  updateComment (inputs config) = false ->
  filter is_listing (requests (postComment config message)) = [] /\
  exists searches creates,
    requests (postComment config message) = (searches ++ creates)%list /\
    Forall (fun r => is_search r = true) searches /\
    (List.length searches <= 1)%nat /\
    Forall (fun r => is_create r = true) creates /\
    (List.length creates <= 1)%nat.
Proof.
  intros Hupd.
  assert (Hshape : exists searches creates,
    requests (postComment config message) = (searches ++ creates)%list /\
    Forall (fun r => is_search r = true) searches /\
    (List.length searches <= 1)%nat /\
    Forall (fun r => is_create r = true) creates /\
    (List.length creates <= 1)%nat).
  { unfold postComment.
    destruct (String.eqb (commentMode (inputs config)) "none");
      [exists [], []; repeat split; auto|].
    destruct (String.eqb (commentMode (inputs config)) "pr").
    - unfold postCommentOnPr. rewrite requests_bind.
      assert (Hs : Forall (fun r => is_search r = true)
                     (requests (getPullNumber config)) /\
                   (List.length (requests (getPullNumber config)) <= 1)%nat).
      { destruct (getPullNumber_requests config) as [-> | [q ->]];
          split; repeat constructor. }
      destruct Hs as [Hs Hlen].
      destruct (settled (getPullNumber config)) as [[n|]|e].
      + destruct (Js.truthy_number n); cbn [negb].
        * rewrite Hupd. eexists _, [_].
          split; [reflexivity|]. repeat split; auto; repeat constructor.
        * exists (requests (getPullNumber config)), [].
          split; [reflexivity|]. repeat split; auto.
      + exists (requests (getPullNumber config)), [].
        split; [reflexivity|]. repeat split; auto.
      + exists (requests (getPullNumber config)), [].
        split; [now rewrite app_nil_r|]. repeat split; auto.
    - destruct (String.eqb (commentMode (inputs config)) "commit");
        [|exists [], []; repeat split; auto].
      unfold postCommentOnCommit.
      destruct (sha (context config)) as [s|];
        [|exists [], []; repeat split; auto].
      destruct (Js.truthy_string s); cbn [negb];
        [|exists [], []; repeat split; auto].
      rewrite Hupd. eexists [], [_].
      split; [reflexivity|]. repeat split; auto; repeat constructor. }
  split; [|exact Hshape].
  destruct Hshape as (searches & creates & -> & Hs & _ & Hc & _).
  rewrite filter_app.
  rewrite (filter_out is_listing is_search _ Hs search_not_listing).
  now rewrite (filter_out is_listing is_create _ Hc create_not_listing).
Qed.

(** ** Comments without a body *)

Lemma body_includes_spec tag c :
  body_includes tag c = true <->
  exists b, body c = Some b /\ Js.includes b tag = true.
Proof.
  unfold body_includes. destruct (body c) as [b|]; split.
  - eauto.
  - now intros (b' & [= <-] & H).
  - discriminate.
  - now intros (b' & [=] & _).
Qed.

Lemma previous_comment_scan_picks octokit repo t tag c :
  settled (previous_comment_scan octokit repo t tag) = Returned (Some c) ->
  body_includes tag c = true.
Proof.
  destruct t as [n|s]; cbn [previous_comment_scan].
  - unfold fetchPreviousPrComment. rewrite settled_bind.
    destruct (settled (paginate _ _)) as [cs|e]; [|discriminate].
    cbn. intros [= H]. now destruct (find_some _ _ H).
  - apply scan_pages_picks.
Qed.

Lemma previous_comment_scan_answers octokit repo t tag pages :
  answers (scanned_listing octokit repo t) pages ->
  settled (previous_comment_scan octokit repo t tag)
    = Returned (find (body_includes tag) (List.concat pages)).
Proof.
  intros Hans. destruct (answers_inv _ _ Hans) as (d & ps & -> & Hd & Hps).
  destruct t as [n|s]; cbn [previous_comment_scan scanned_listing] in *.
  - unfold fetchPreviousPrComment, paginate.
    now rewrite Hd, Hps, paginate_from_answers.
  - unfold fetchPreviousCommitComment.
    now rewrite Hd, Hps, scan_pages_answers.
Qed.

Lemma previous_comment_scan_thrown octokit repo t tag e :
  settled (previous_comment_scan octokit repo t tag) = Thrown e ->
  In (Thrown e)
     (first_page (scanned_listing octokit repo t)
        :: next_pages (scanned_listing octokit repo t)).
Proof.
  destruct t as [n|s]; cbn [previous_comment_scan scanned_listing].
  - unfold fetchPreviousPrComment, paginate. rewrite settled_bind.
    destruct (settled (paginate_from _ _ _ _)) eqn:E; [discriminate|].
    intros [= <-]. eapply paginate_from_thrown. exact E.
  - apply scan_pages_thrown.
Qed.

(** C10: in both scans a comment without a body never matches and never
    makes the scan fail: a comment matches exactly when it has a body that
    contains the tag; a comment that a scan returns has such a body; a scan
    over answered pages, body-less comments included, returns the first
    match of the pages; and a scan is rejected only with a rejection of
    the listing itself. *)
Theorem scans_skip_bodyless_comments octokit repo t tag :
  (forall c, body c = None -> body_includes tag c = false) /\
  (forall c, body_includes tag c = true <->
             exists b, body c = Some b /\ Js.includes b tag = true) /\
  (forall c,
     settled (previous_comment_scan octokit repo t tag) = Returned (Some c) ->
     exists b, body c = Some b /\ Js.includes b tag = true) /\
  (forall pages,
     answers (scanned_listing octokit repo t) pages ->
     settled (previous_comment_scan octokit repo t tag)
       = Returned (find (body_includes tag) (List.concat pages))) /\
  (forall e,
     settled (previous_comment_scan octokit repo t tag) = Thrown e ->
     In (Thrown e)
        (first_page (scanned_listing octokit repo t)
           :: next_pages (scanned_listing octokit repo t))).
Proof.
  repeat split.
  - intros c Hc. unfold body_includes. now rewrite Hc.
  - apply body_includes_spec.
  - apply body_includes_spec.
  - intros c Hc. apply body_includes_spec.
    eapply previous_comment_scan_picks. exact Hc.
  - apply previous_comment_scan_answers.
  - apply previous_comment_scan_thrown.
Qed.

(** ** Test vectors and scenarios *)

Example md5_empty : Md5.hexdigest "" = "d41d8cd98f00b204e9800998ecf8427e".
Proof. vm_compute. reflexivity. Qed.

Example md5_abc : Md5.hexdigest "abc" = "900150983cd24fb0d6963f7d28e17f72".
Proof. vm_compute. reflexivity. Qed.

Example md5_two_blocks :
  Md5.hexdigest
    "aaaaaaaaaaaaaaaaaaaaaaaaaaaaaaaaaaaaaaaaaaaaaaaaaaaaaaaaaaaaaaaaaaaaaa"
  = "0f5c6c4e740bfcc08c3c26ccb2673d46".
Proof. vm_compute. reflexivity. Qed.

Example scenario_tag :
  getCommentTag Scenario.commit_with_previous = Scenario.the_tag.
Proof. vm_compute. reflexivity. Qed.

Example scenario_commit_update :
  postComment Scenario.commit_with_previous "plan ok" =
  ([Rest (ListCommentsForCommit Scenario.the_repo "abc123" 1);
    Debug "Updating previous comment";
    Rest (ReposUpdateCommitComment Scenario.the_repo 7
            (Scenario.the_tag ++ Js.LF ++ "plan ok"))],
   Returned tt).
Proof. vm_compute. reflexivity. Qed.

Example scenario_pr_create :
  postComment Scenario.pr_without_previous "plan ok" =
  ([Rest (GetIssueComments Scenario.the_repo 42 1);
    Rest (GetIssueComments Scenario.the_repo 42 2);
    Debug "Adding new comment";
    Rest (IssuesCreateComment Scenario.the_repo 42
            (Scenario.the_tag ++ Js.LF ++ "plan ok"))],
   Returned tt).
Proof. vm_compute. reflexivity. Qed.

Example scenario_search_then_update :
  requests (postComment (Scenario.pr_by_search [17; 18] true) "plan ok") =
  [SearchIssuesAndPullRequests "is:pr repo:acme/infra sha:abc123";
   GetIssueComments Scenario.the_repo 17 1;
   IssuesUpdateComment Scenario.the_repo 5
     (Scenario.the_tag ++ Js.LF ++ "plan ok")].
Proof. vm_compute. reflexivity. Qed.

Example scenario_rejected_listing :
  postComment (Scenario.offline "commit" None None (Some "abc123")) "plan ok"
  = ([Rest (ListCommentsForCommit Scenario.the_repo "abc123" 1)],
     Thrown "HttpError").
Proof. vm_compute. reflexivity. Qed.



Lemma postComment_creates_comment_witness :
  filter is_create
    (requests (postComment Scenario.pr_without_previous "plan ok"))
    = [create_of Scenario.pr_without_previous (OnPr 42)
         (getCommentTag Scenario.pr_without_previous ++ Js.LF ++ "plan ok")]
  /\
  filter is_update
    (requests (postComment Scenario.pr_without_previous "plan ok")) = [].
Proof.
  apply (postComment_creates_comment Scenario.pr_without_previous "plan ok"
           (OnPr 42)
           [[Scenario.untagged_comment 1; Scenario.bodyless_comment 2];
            [Scenario.untagged_comment 3]]).
  - repeat split.
  - right. split; [reflexivity|].
    intros c [<- | [<- | [<- | []]]]; vm_compute; reflexivity.
Defined.

(** C2 as stated fails when the platform rejects the listing: with
    [updateComment] set, commit "abc123" resolved and no comment carrying
    the tag, the run is rejected after the first page and creates
    nothing. *)
Lemma rejected_listing_prevents_create :
  resolves (Scenario.offline "commit" None None (Some "abc123"))
    (OnCommit "abc123") /\
  (forall page c,
     In (Returned page)
        (first_page
           (listing_of (Scenario.offline "commit" None None (Some "abc123"))
              (OnCommit "abc123"))
         :: next_pages
              (listing_of (Scenario.offline "commit" None None (Some "abc123"))
                 (OnCommit "abc123"))) ->
     In c page ->
     body_includes
       (getCommentTag (Scenario.offline "commit" None None (Some "abc123")))
       c = false) /\
  postComment (Scenario.offline "commit" None None (Some "abc123")) "plan ok"
    = ([Rest (ListCommentsForCommit Scenario.the_repo "abc123" 1)],
       Thrown "HttpError") /\
  ~ (forall config message t,
       resolves config t ->
       updateComment (inputs config) = false \/
       (forall page c,
          In (Returned page)
             (first_page (listing_of config t)
                :: next_pages (listing_of config t)) ->
          In c page ->
          body_includes (getCommentTag config) c = false) ->
       filter is_create (requests (postComment config message))
         = [create_of config t (getCommentTag config ++ Js.LF ++ message)] /\
       filter is_update (requests (postComment config message)) = []).
Proof.
  assert (Hres : resolves (Scenario.offline "commit" None None (Some "abc123"))
                   (OnCommit "abc123")) by (repeat split).
  assert (Hnone : forall page c,
     In (Returned page)
        (first_page
           (listing_of (Scenario.offline "commit" None None (Some "abc123"))
              (OnCommit "abc123"))
         :: next_pages
              (listing_of (Scenario.offline "commit" None None (Some "abc123"))
                 (OnCommit "abc123"))) ->
     In c page ->
     body_includes
       (getCommentTag (Scenario.offline "commit" None None (Some "abc123")))
       c = false).
  { intros page c [H | []]. discriminate. }
  split; [exact Hres|]. split; [exact Hnone|].
  split; [vm_compute; reflexivity|].
  intros Hall.
  destruct (Hall (Scenario.offline "commit" None None (Some "abc123"))
              "plan ok" (OnCommit "abc123") Hres (or_intror Hnone))
    as [Hcreate _].
  vm_compute in Hcreate. discriminate.
Qed.

Lemma getCommentTag_identity_fields_witness :
  getCommentTag Scenario.commit_with_previous
  = getCommentTag (Scenario.pr_by_search [17] false).
Proof.
  apply (getCommentTag_identity_fields Scenario.commit_with_previous
           (Scenario.pr_by_search [17] false)); reflexivity.
Defined.

Lemma postComment_none_witness :
  trace (postComment
           (Scenario.offline "none" (Some 42) None (Some "abc123")) "plan ok")
    = [Debug "Not commenting on PR by configuration"] /\
  requests (postComment
              (Scenario.offline "none" (Some 42) None (Some "abc123"))
              "plan ok") = [] /\
  settled (postComment
             (Scenario.offline "none" (Some 42) None (Some "abc123"))
             "plan ok") = Returned tt.
Proof.
  apply (postComment_none
           (Scenario.offline "none" (Some 42) None (Some "abc123")) "plan ok").
  reflexivity.
Defined.

Lemma postComment_unresolvable_witness :
  (unresolvable (Scenario.offline "pr" None None (Some "abc123")) /\
   settled (postComment (Scenario.offline "pr" None None (Some "abc123"))
              "plan ok") = Returned tt) /\
  (unresolvable (Scenario.pr_by_search [] true) /\
   filter is_write
     (requests (postComment (Scenario.pr_by_search [] true) "plan ok")) = [])
  /\
  (unresolvable (Scenario.offline "commit" None None None) /\
   requests (postComment (Scenario.offline "commit" None None None) "plan ok")
     = []).
Proof.
  assert (H1 : unresolvable (Scenario.offline "pr" None None (Some "abc123"))).
  { left. repeat split. left. reflexivity. }
  assert (H2 : unresolvable (Scenario.pr_by_search [] true)).
  { left. split; [reflexivity|]. split; [reflexivity|]. right.
    exists "acme/infra", {| items := []; data_json := "{}" |}.
    repeat split. }
  assert (H3 : unresolvable (Scenario.offline "commit" None None None)).
  { right. split; reflexivity. }
  split; [|split]; (split; [assumption|]).
  - apply (postComment_unresolvable _ "plan ok" H1).
  - apply (postComment_unresolvable _ "plan ok" H2).
  - apply (postComment_unresolvable _ "plan ok" H3). reflexivity.
Defined.


Lemma commit_scan_short_circuits_witness :
  fetchPreviousCommitComment
    (octokit Scenario.commit_previous_on_third_page) Scenario.the_repo
    "abc123" (getCommentTag Scenario.commit_previous_on_third_page)
    = (page_events (ListCommentsForCommit Scenario.the_repo "abc123") 1 3,
       Returned (Some (Scenario.tagged_comment 7))) /\
  requests (postComment Scenario.commit_previous_on_third_page "plan ok")
    = (page_requests (ListCommentsForCommit Scenario.the_repo "abc123") 1 3
         ++ [ReposUpdateCommitComment Scenario.the_repo 7
               (getCommentTag Scenario.commit_previous_on_third_page ++ Js.LF
                  ++ "plan ok")])%list.
Proof.
  apply (commit_scan_short_circuits Scenario.commit_previous_on_third_page
           "plan ok" "abc123"
           [[Scenario.untagged_comment 1; Scenario.bodyless_comment 2]; []]
           [Scenario.bodyless_comment 3] (Scenario.tagged_comment 7)
           [Scenario.tagged_comment 9] [Thrown "HttpError"]).
  - reflexivity.
  - reflexivity.
  - reflexivity.
  - reflexivity.
  - reflexivity.
  - repeat constructor.
  - repeat constructor.
  - vm_compute. reflexivity.
Defined.

Lemma postComment_unrecognized_mode_witness :
  trace (postComment
           (Scenario.offline "issue" (Some 42) None (Some "abc123"))
           "plan ok")
    = [SetFailed "Unrecognized comment mode issue"] /\
  requests (postComment
              (Scenario.offline "issue" (Some 42) None (Some "abc123"))
              "plan ok") = [] /\
  settled (postComment
             (Scenario.offline "issue" (Some 42) None (Some "abc123"))
             "plan ok") = Returned tt.
Proof.
  apply (postComment_unrecognized_mode
           (Scenario.offline "issue" (Some 42) None (Some "abc123"))
           "plan ok"); discriminate.
Defined.

Lemma postComment_no_listing_without_update_witness :
  filter is_listing
    (requests (postComment (Scenario.pr_by_search [17] false) "plan ok")) = []
  /\
  exists searches creates,
    requests (postComment (Scenario.pr_by_search [17] false) "plan ok")
      = (searches ++ creates)%list /\
    Forall (fun r => is_search r = true) searches /\
    (List.length searches <= 1)%nat /\
    Forall (fun r => is_create r = true) creates /\
    (List.length creates <= 1)%nat.
Proof.
  apply (postComment_no_listing_without_update
           (Scenario.pr_by_search [17] false) "plan ok").
  reflexivity.
Defined.

Lemma scans_skip_bodyless_comments_witness :
  settled (previous_comment_scan (octokit Scenario.pr_without_previous)
             Scenario.the_repo (OnPr 42) Scenario.the_tag)
    = Returned
        (find (body_includes Scenario.the_tag)
           (List.concat
              [[Scenario.untagged_comment 1; Scenario.bodyless_comment 2];
               [Scenario.untagged_comment 3]])) /\
  settled (previous_comment_scan
             (octokit Scenario.commit_with_previous_listed)
             Scenario.the_repo (OnCommit "abc123") Scenario.the_tag)
    = Returned
        (find (body_includes Scenario.the_tag)
           (List.concat
              [[Scenario.bodyless_comment 3; Scenario.tagged_comment 7];
               [Scenario.untagged_comment 8]])).
Proof.
  split.
  - apply (scans_skip_bodyless_comments (octokit Scenario.pr_without_previous)
             Scenario.the_repo (OnPr 42) Scenario.the_tag).
    reflexivity.
  - apply (scans_skip_bodyless_comments
             (octokit Scenario.commit_with_previous_listed)
             Scenario.the_repo (OnCommit "abc123") Scenario.the_tag).
    reflexivity.
Defined.

(** ** The run as a whole *)

Lemma bind_ext {A B} (m : Async A) (k k' : A -> Async B) :
  (forall a, k a = k' a) -> bind m k = bind m k'.
Proof.
  intros H. unfold bind. destruct (snd m); [now rewrite H | reflexivity].
Qed.

Lemma bind_of_returned {A B} (m : Async A) (k : A -> Async B) a :
  settled m = Returned a ->
  bind m k = ((trace m ++ trace (k a))%list, settled (k a)).
Proof. unfold bind, settled, trace. now intros ->. Qed.

Lemma bind_of_thrown {A B} (m : Async A) (k : A -> Async B) e :
  settled m = Thrown e -> bind m k = (trace m, Thrown e).
Proof. unfold bind, settled, trace. now intros ->. Qed.

Lemma postComment_by_route config message :
  postComment config message =
  match route config with
  | Silent => ([Debug "Not commenting on PR by configuration"], Returned tt)
  | Unrecognized =>
      ([SetFailed
          ("Unrecognized comment mode " ++ commentMode (inputs config))],
       Returned tt)
  | PrUnresolved =>
      getPullNumber config ;;
      debug "Not commenting on PR since it could not be identified"
  | CommitRemoved =>
      ([Debug "Not commenting on commit because it has been removed"],
       Returned tt)
  | Resolved t =>
      ((resolution_trace config t ++ trace (write_phase config t message))
         %list,
       settled (write_phase config t message))
  end.
Proof.
  unfold postComment, route.
  destruct (String.eqb (commentMode (inputs config)) "none"); [reflexivity|].
  destruct (String.eqb (commentMode (inputs config)) "pr").
  - unfold postCommentOnPr.
    destruct (settled (getPullNumber config)) as [[n|]|e] eqn:Hgpn.
    + rewrite (bind_of_returned _ _ _ Hgpn).
      destruct (Js.truthy_number n); cbn [negb].
      * unfold write_phase, lookup, resolution_trace.
        cbn [previous_comment_scan].
        erewrite bind_ext; [reflexivity|]. intros [c|]; reflexivity.
      * now rewrite (bind_of_returned _ _ _ Hgpn).
    + now rewrite !(bind_of_returned _ _ _ Hgpn).
    + now rewrite !(bind_of_thrown _ _ _ Hgpn).
  - destruct (String.eqb (commentMode (inputs config)) "commit");
      [|reflexivity].
    unfold postCommentOnCommit.
    destruct (sha (context config)) as [s|]; [|reflexivity].
    destruct (Js.truthy_string s); cbn [negb]; [|reflexivity].
    unfold write_phase, lookup, resolution_trace.
    cbn [previous_comment_scan app].
    erewrite bind_ext; [apply surjective_pairing|].
    intros [c|]; reflexivity.
Qed.

Lemma route_resolved config t : route config = Resolved t <-> resolves config t.
Proof.
  unfold route. split.
  - destruct (String.eqb (commentMode (inputs config)) "none") eqn:Hn;
      [discriminate|].
    destruct (String.eqb (commentMode (inputs config)) "pr") eqn:Hp.
    + apply String.eqb_eq in Hp.
      destruct (settled (getPullNumber config)) as [[n|]|e] eqn:Hgpn;
        try discriminate.
      destruct (Js.truthy_number n) eqn:Hn'; [|discriminate].
      intros [= <-]. cbn. auto.
    + destruct (String.eqb (commentMode (inputs config)) "commit") eqn:Hc;
        [|discriminate].
      apply String.eqb_eq in Hc.
      destruct (sha (context config)) as [s|] eqn:Hsha; [|discriminate].
      destruct (Js.truthy_string s) eqn:Hs; [|discriminate].
      intros [= <-]. cbn. auto.
  - destruct t as [n|s]; cbn; intros (-> & Hres & Ht); cbn.
    + now rewrite Hres, Ht.
    + now rewrite Hres, Ht.
Qed.

(** ** Scans over any listing *)

Lemma paginate_from_trace req : forall next n cur,
  exists k,
    (1 <= k <= S (List.length next))%nat /\
    trace (paginate_from req n cur next) = page_events req n k.
Proof.
  induction next as [|p next IH]; intros n cur.
  - exists 1%nat. split; [cbn; lia|]. destruct cur; reflexivity.
  - destruct cur as [d|e].
    + destruct (IH (S n) p) as (k & Hk & Htr).
      exists (S k). split; [cbn [List.length]; lia|].
      cbn [paginate_from]. rewrite trace_bind. cbn [settled request snd].
      rewrite trace_bind, Htr, page_events_S.
      destruct (settled (paginate_from req (S n) p next)); cbn;
        now rewrite ?app_nil_r.
    + exists 1%nat. split; [cbn; lia|]. reflexivity.
Qed.

Lemma scan_pages_trace req tag : forall next n cur,
  exists k,
    (1 <= k <= S (List.length next))%nat /\
    trace (scan_pages req tag n cur next) = page_events req n k.
Proof.
  induction next as [|p next IH]; intros n cur.
  - exists 1%nat. split; [cbn; lia|].
    destruct cur as [d|e]; [|reflexivity].
    cbn. destruct (find (body_includes tag) d); reflexivity.
  - destruct cur as [d|e].
    + cbn [scan_pages]. rewrite trace_bind. cbn [settled request snd].
      destruct (find (body_includes tag) d).
      * exists 1%nat. split; [cbn; lia|]. reflexivity.
      * destruct (IH (S n) p) as (k & Hk & Htr).
        exists (S k). split; [cbn [List.length]; lia|].
        now rewrite Htr, page_events_S.
    + exists 1%nat. split; [cbn; lia|]. reflexivity.
Qed.

Lemma paginate_from_returned req : forall next n cur cs,
  settled (paginate_from req n cur next) = Returned cs ->
  exists pages,
    cur :: next = map Returned pages /\ cs = List.concat pages.
Proof.
  induction next as [|p next IH]; intros n cur cs.
  - destruct cur as [d|e]; cbn; [|discriminate].
    intros [= <-]. exists [d]. cbn. now rewrite app_nil_r.
  - destruct cur as [d|e]; [|discriminate].
    cbn [paginate_from]. rewrite settled_bind. cbn [settled request snd].
    rewrite settled_bind.
    destruct (settled (paginate_from req (S n) p next)) as [more|e] eqn:E;
      [|discriminate].
    cbn. intros [= <-].
    destruct (IH _ _ _ E) as (pages & Hpages & ->).
    exists (d :: pages). cbn. now rewrite Hpages.
Qed.

Lemma scan_pages_listed req tag : forall next n cur c,
  settled (scan_pages req tag n cur next) = Returned (Some c) ->
  exists page,
    In (Returned page) (cur :: next) /\ In c page /\
    body_includes tag c = true.
Proof.
  induction next as [|p next IH]; intros n cur c.
  - destruct cur as [d|e]; cbn; [|discriminate].
    destruct (find (body_includes tag) d) as [c'|] eqn:E; cbn;
      [|discriminate].
    intros [= <-]. destruct (find_some _ _ E). exists d. auto.
  - destruct cur as [d|e]; [|discriminate].
    cbn [scan_pages]. rewrite settled_bind. cbn [settled request snd].
    destruct (find (body_includes tag) d) as [c'|] eqn:E.
    + cbn. intros [= <-]. destruct (find_some _ _ E). exists d.
      split; [now left | auto].
    + intros H. destruct (IH _ _ _ H) as (page & Hin & Hc).
      exists page. split; [now right | exact Hc].
Qed.

Lemma scan_pages_none req tag : forall next n cur,
  settled (scan_pages req tag n cur next) = Returned None ->
  exists pages,
    cur :: next = map Returned pages /\ Forall (untagged tag) pages.
Proof.
  induction next as [|p next IH]; intros n cur.
  - destruct cur as [d|e]; cbn; [|discriminate].
    destruct (find (body_includes tag) d) eqn:E; cbn; [discriminate|].
    intros _. exists [d]. split; [reflexivity | now constructor].
  - destruct cur as [d|e]; [|discriminate].
    cbn [scan_pages]. rewrite settled_bind. cbn [settled request snd].
    destruct (find (body_includes tag) d) eqn:E; [discriminate|].
    intros H. destruct (IH _ _ H) as (pages & Hpages & Hall).
    exists (d :: pages). cbn. rewrite Hpages.
    split; [reflexivity | now constructor].
Qed.

(** ** The lookup and the write of a resolved run *)

Lemma listing_of_scanned config t :
  scanned_listing (octokit config) (context_repo (context config)) t
  = listing_of config t.
Proof. destruct t; reflexivity. Qed.

Lemma find_concat_untagged {A} (f : A -> bool) (pages : list (list A)) :
  find f (List.concat pages) = None ->
  Forall (fun pg => find f pg = None) pages.
Proof.
  induction pages as [|pg pages IH]; cbn; [constructor|].
  destruct (find f pg) as [c|] eqn:E.
  - now rewrite (find_app_some _ _ _ _ E).
  - rewrite (find_app_none _ _ _ E). auto.
Qed.

Lemma lookup_trace config t :
  exists k,
    (k <= S (List.length (next_pages (listing_of config t))))%nat /\
    (updateComment (inputs config) = true -> (1 <= k)%nat) /\
    (updateComment (inputs config) = false -> k = 0%nat) /\
    trace (lookup config t) = page_events (listing_request config t) 1 k.
Proof.
  unfold lookup. destruct (updateComment (inputs config)).
  - destruct t as [n|s]; cbn [previous_comment_scan listing_of listing_request].
    + unfold fetchPreviousPrComment, paginate.
      destruct (paginate_from_trace
                  (GetIssueComments (context_repo (context config)) n)
                  (next_pages (issues_listComments (octokit config)
                                 (context_repo (context config)) n))
                  1%nat
                  (first_page (issues_listComments (octokit config)
                                 (context_repo (context config)) n)))
        as (k & Hk & Htr).
      exists k. repeat split; try lia; try discriminate.
      rewrite trace_bind, Htr.
      destruct (settled (paginate_from _ _ _ _)); cbn;
        now rewrite ?app_nil_r.
    + unfold fetchPreviousCommitComment.
      destruct (scan_pages_trace
                  (ListCommentsForCommit (context_repo (context config)) s)
                  (getCommentTag config)
                  (next_pages (repos_listCommentsForCommit (octokit config)
                                 (context_repo (context config)) s))
                  1%nat
                  (first_page (repos_listCommentsForCommit (octokit config)
                                 (context_repo (context config)) s)))
        as (k & Hk & Htr).
      exists k. repeat split; try lia; try discriminate. exact Htr.
  - exists 0%nat. repeat split; try lia; discriminate.
Qed.

Lemma lookup_picks config t c :
  settled (lookup config t) = Returned (Some c) ->
  updateComment (inputs config) = true /\
  exists page,
    In (Returned page)
       (first_page (listing_of config t) :: next_pages (listing_of config t))
    /\ In c page /\ body_includes (getCommentTag config) c = true.
Proof.
  unfold lookup. destruct (updateComment (inputs config)); [|discriminate].
  intros H. split; [reflexivity|].
  destruct t as [n|s]; cbn [previous_comment_scan listing_of] in *.
  - unfold fetchPreviousPrComment, paginate in H.
    rewrite settled_bind in H.
    destruct (settled (paginate_from _ _ _ _)) as [cs|e] eqn:E;
      [|discriminate].
    cbn in H. injection H as H.
    destruct (find_some _ _ H) as [Hin Hc].
    destruct (paginate_from_returned _ _ _ _ _ E) as (pages & Hpages & ->).
    apply in_concat in Hin. destruct Hin as (page & Hpage & Hin).
    exists page. rewrite Hpages. split; [now apply in_map | auto].
  - now apply scan_pages_listed in H.
Qed.

Lemma lookup_none config t :
  settled (lookup config t) = Returned None ->
  updateComment (inputs config) = true ->
  exists pages,
    answers (listing_of config t) pages /\
    Forall (untagged (getCommentTag config)) pages.
Proof.
  unfold lookup. intros H Hupd. rewrite Hupd in H.
  destruct t as [n|s]; cbn [previous_comment_scan listing_of] in *.
  - unfold fetchPreviousPrComment, paginate in H.
    rewrite settled_bind in H.
    destruct (settled (paginate_from _ _ _ _)) as [cs|e] eqn:E;
      [|discriminate].
    cbn in H. injection H as H.
    destruct (paginate_from_returned _ _ _ _ _ E) as (pages & Hpages & ->).
    exists pages. split; [exact Hpages|].
    now apply find_concat_untagged.
  - now apply scan_pages_none in H.
Qed.

Lemma lookup_thrown config t e :
  settled (lookup config t) = Thrown e ->
  updateComment (inputs config) = true /\
  In (Thrown e)
     (first_page (listing_of config t) :: next_pages (listing_of config t)).
Proof.
  unfold lookup. destruct (updateComment (inputs config)); [|discriminate].
  intros H. split; [reflexivity|]. rewrite <- listing_of_scanned.
  now apply previous_comment_scan_thrown in H.
Qed.

Lemma requests_pair {A} (tr1 tr2 : list Event) (o : outcome A) :
  requests ((tr1 ++ tr2)%list, o)
  = (flat_map rest_of tr1 ++ flat_map rest_of tr2)%list.
Proof. unfold requests, trace. cbn [fst]. apply flat_map_app. Qed.

Lemma flat_map_page_events req from count :
  flat_map rest_of (page_events req from count) = page_requests req from count.
Proof.
  unfold page_events, page_requests.
  induction (seq from count) as [|k ks IH]; cbn; congruence.
Qed.

Lemma write_phase_trace config t message :
  trace (write_phase config t message)
  = (trace (lookup config t) ++
     match settled (lookup config t) with
     | Returned previousComment =>
         [Debug match previousComment with
                | Some _ => "Updating previous comment"
                | None => "Adding new comment"
                end;
          Rest (write_of config t previousComment message)]
     | Thrown _ => []
     end)%list.
Proof.
  unfold write_phase. rewrite trace_bind.
  destruct (settled (lookup config t)) as [[c|]|e];
    cbn; now rewrite ?app_nil_r.
Qed.

Lemma write_phase_settled config t message :
  settled (write_phase config t message)
  = match settled (lookup config t) with
    | Returned previousComment =>
        answer_or_void
          (write_answer (octokit config)
             (write_of config t previousComment message))
    | Thrown e => Thrown e
    end.
Proof.
  unfold write_phase. rewrite settled_bind.
  destruct (settled (lookup config t)) as [[c|]|e]; reflexivity.
Qed.

Lemma write_phase_requests config t message :
  exists k,
    (k <= S (List.length (next_pages (listing_of config t))))%nat /\
    (updateComment (inputs config) = true -> (1 <= k)%nat) /\
    (updateComment (inputs config) = false -> k = 0%nat) /\
    flat_map rest_of (trace (write_phase config t message))
    = (page_requests (listing_request config t) 1 k
         ++ written config t message)%list.
Proof.
  destruct (lookup_trace config t) as (k & Hle & Hge & Hz & Htr).
  exists k. repeat split; auto.
  rewrite write_phase_trace, flat_map_app, Htr, flat_map_page_events.
  f_equal. unfold written.
  destruct (settled (lookup config t)) as [[c|]|e]; reflexivity.
Qed.

(** The requests of any run. *)
Lemma postComment_requests_by_route config message :
  exists k,
    (forall t, route config = Resolved t ->
       (k <= S (List.length (next_pages (listing_of config t))))%nat /\
       (updateComment (inputs config) = true -> (1 <= k)%nat) /\
       (updateComment (inputs config) = false -> k = 0%nat)) /\
    requests (postComment config message)
    = match route config with
      | Resolved t =>
          (resolution_requests config t
             ++ page_requests (listing_request config t) 1 k
             ++ written config t message)%list
      | PrUnresolved => requests (getPullNumber config)
      | _ => []
      end.
Proof.
  rewrite postComment_by_route.
  destruct (route config) as [| | | |t] eqn:Hroute;
    try (exists 0%nat; split; [discriminate | reflexivity]).
  - exists 0%nat. split; [discriminate|].
    rewrite requests_bind.
    destruct (settled (getPullNumber config)); cbn; now rewrite ?app_nil_r.
  - destruct (write_phase_requests config t message)
      as (k & Hle & Hge & Hz & Hreq).
    exists k. split; [now intros t' [= <-]|].
    rewrite requests_pair, Hreq. f_equal.
    destruct t; reflexivity.
Qed.

Lemma route_pr_unresolved config :
  route config = PrUnresolved -> commentMode (inputs config) = "pr".
Proof.
  unfold route.
  destruct (String.eqb (commentMode (inputs config)) "none"); [discriminate|].
  destruct (String.eqb (commentMode (inputs config)) "pr") eqn:Hp.
  - intros _. now apply String.eqb_eq.
  - destruct (String.eqb (commentMode (inputs config)) "commit");
      [|discriminate].
    destruct (sha (context config)) as [s|]; [|discriminate].
    destruct (Js.truthy_string s); discriminate.
Qed.

Lemma getPullNumber_only_searches config :
  Forall (fun r => is_search r = true) (requests (getPullNumber config)) /\
  (List.length (requests (getPullNumber config)) <= 1)%nat.
Proof.
  destruct (getPullNumber_requests config) as [-> | [q ->]];
    split; repeat constructor.
Qed.

Lemma is_write_write_of config t previousComment message :
  is_write (write_of config t previousComment message) = true.
Proof. destruct t, previousComment; reflexivity. Qed.

(** Every request of a run is the search of the pull-request path, a page
    of the lookup, or the write. *)
Lemma in_requests_cases config message r :
  In r (requests (postComment config message)) ->
  (is_search r = true /\ commentMode (inputs config) = "pr" /\
   In r (requests (getPullNumber config)))
  \/
  (exists t k,
     resolves config t /\ updateComment (inputs config) = true /\
     r = listing_request config t k)
  \/
  (exists t previousComment,
     resolves config t /\
     settled (lookup config t) = Returned previousComment /\
     r = write_of config t previousComment message /\
     settled (postComment config message)
     = answer_or_void (write_answer (octokit config) r)).
Proof.
  destruct (postComment_requests_by_route config message) as (k & Hk & Hreq).
  rewrite Hreq. clear Hreq.
  destruct (route config) as [| | | |t] eqn:Hroute; try (intros []).
  - intros Hin. left.
    destruct (getPullNumber_only_searches config) as [Hs _].
    rewrite Forall_forall in Hs.
    auto using route_pr_unresolved.
  - pose proof (proj1 (route_resolved config t) Hroute) as Hres.
    destruct (Hk t eq_refl) as (_ & _ & Hz).
    rewrite !in_app_iff. intros [Hin | [Hin | Hin]].
    + left. destruct t as [n|s]; [|destruct Hin].
      destruct (getPullNumber_only_searches config) as [Hs _].
      rewrite Forall_forall in Hs. cbn in Hin, Hres. intuition.
    + right. left. exists t.
      unfold page_requests in Hin. apply in_map_iff in Hin.
      destruct Hin as (j & <- & Hj). exists j. repeat split; auto.
      destruct (updateComment (inputs config)); [reflexivity|].
      rewrite (Hz eq_refl) in Hj. destruct Hj.
    + right. right. exists t. unfold written in Hin.
      destruct (settled (lookup config t)) as [p|e] eqn:Hl; [|destruct Hin].
      destruct Hin as [<- | []]. exists p. repeat split; auto.
      rewrite postComment_by_route, Hroute. cbn [settled snd].
      now rewrite write_phase_settled, Hl.
Qed.

Lemma filter_all {A} (f : A -> bool) (l : list A) :
  Forall (fun r => f r = true) l -> filter f l = l.
Proof.
  induction 1 as [|r l Hr _ IH]; cbn; [reflexivity|]. now rewrite Hr, IH.
Qed.

Lemma page_requests_are_listings config t from count :
  Forall (fun r => is_listing r = true)
    (page_requests (listing_request config t) from count).
Proof.
  unfold page_requests. apply Forall_forall. intros r Hr.
  apply in_map_iff in Hr. destruct Hr as (k & <- & _). destruct t; reflexivity.
Qed.

Lemma written_are_writes config t message :
  Forall (fun r => is_write r = true) (written config t message) /\
  (List.length (written config t message) <= 1)%nat.
Proof.
  unfold written. destruct (settled (lookup config t)); cbn.
  - split; [|lia]. constructor; [apply is_write_write_of | constructor].
  - split; [constructor | lia].
Qed.

Lemma write_not_listing r : is_write r = true -> is_listing r = false.
Proof. destruct r; cbn; congruence. Qed.
Lemma search_is_no_write r : is_search r = true -> is_write r = false.
Proof. destruct r; cbn; congruence. Qed.
Lemma listing_is_no_write r : is_listing r = true -> is_write r = false.
Proof. destruct r; cbn; congruence. Qed.

(** X1: every run issues at most one search, then the pages of at most
    one listing, then at most one write, in this order; in particular
    never a create and an update together. *)
Theorem postComment_request_protocol config message :
  exists searches listings writes,
    requests (postComment config message)
      = (searches ++ listings ++ writes)%list /\
    Forall (fun r => is_search r = true) searches /\
    (List.length searches <= 1)%nat /\
    Forall (fun r => is_listing r = true) listings /\
    Forall (fun r => is_write r = true) writes /\
    (List.length writes <= 1)%nat.
Proof.
  destruct (postComment_requests_by_route config message) as (k & _ & Hreq).
  rewrite Hreq. clear Hreq.
  destruct (getPullNumber_only_searches config) as [Hs Hlen].
  destruct (route config) as [| | | |t];
    try solve [exists [], [], []; repeat split; auto].
  - exists (requests (getPullNumber config)), [], [].
    rewrite app_nil_r. repeat split; auto.
  - exists (resolution_requests config t),
      (page_requests (listing_request config t) 1 k),
      (written config t message).
    split; [reflexivity|].
    split; [apply resolution_are_searches|].
    split; [destruct t; cbn; [exact Hlen | lia]|].
    split; [apply page_requests_are_listings|].
    apply written_are_writes.
Qed.

(** X2: the pages of the lookup are requested in order from page 1, at
    least one and at most as many as the listing has, whatever the platform
    answers. *)
Theorem listing_pages_in_order config message t :
  resolves config t ->
  updateComment (inputs config) = true ->
  exists k,
    (1 <= k <= S (List.length (next_pages (listing_of config t))))%nat /\
    filter is_listing (requests (postComment config message))
    = page_requests (listing_request config t) 1 k.
Proof.
  intros Hres Hupd. apply route_resolved in Hres.
  destruct (postComment_requests_by_route config message) as (k & Hk & Hreq).
  rewrite Hreq, Hres. destruct (Hk t Hres) as (Hle & Hge & _).
  exists k. split; [split; auto|].
  rewrite !filter_app.
  rewrite (filter_out is_listing is_search _
             (resolution_are_searches config t) search_not_listing).
  rewrite (filter_all is_listing _ (page_requests_are_listings config t 1 k)).
  rewrite (filter_out is_listing is_write _
             (proj1 (written_are_writes config t message)) write_not_listing).
  now rewrite app_nil_r.
Qed.

Lemma getPullNumber_search_request config q :
  In (SearchIssuesAndPullRequests q) (requests (getPullNumber config)) ->
  exists fn,
    repository_full_name config = Some fn /\ q = search_query config fn.
Proof.
  destruct (Js.truthy_opt Js.truthy_number (direct_number config)) eqn:Hd.
  - rewrite (getPullNumber_direct _ Hd). intros [].
  - destruct (repository_full_name config) as [fn|] eqn:Hr.
    + destruct (Js.truthy_string fn) eqn:Hfn.
      * rewrite (getPullNumber_search _ _ Hd Hr Hfn). intros Hq.
        exists fn. split; [reflexivity|].
        destruct (search_issuesAndPullRequests _ _);
          cbn in Hq; destruct Hq as [[= <-] | []]; reflexivity.
      * rewrite (getPullNumber_no_repository _ Hd);
          [intros [] | now rewrite Hr].
    + rewrite (getPullNumber_no_repository _ Hd);
        [intros [] | now rewrite Hr].
Qed.

(** X3: every listing and every write of a run names the repository of
    the context, while the search names, in its query, the repository of
    the payload, which the code does not compare with that of the context;
    a search or a request on issue comments occurs only in mode "pr", a
    request on commit comments only in mode "commit". *)
Theorem requests_match_mode config message r :
  In r (requests (postComment config message)) ->
  (is_search r = false ->
   request_repo r = Some (context_repo (context config))) /\
  (is_search r = true ->
   exists fn,
     repository_full_name config = Some fn /\
     r = SearchIssuesAndPullRequests (search_query config fn)) /\
  (is_search r = true \/ on_issue_comments r = true ->
   commentMode (inputs config) = "pr") /\
  (on_commit_comments r = true -> commentMode (inputs config) = "commit").
Proof.
  intros Hin.
  destruct (in_requests_cases _ _ _ Hin)
    as [(Hs & Hmode & Hgpn) | [(t & k & Hres & _ & ->)
                              | (t & p & Hres & _ & -> & _)]].
  - destruct r as [q| | | | | |]; try discriminate.
    destruct (getPullNumber_search_request _ _ Hgpn) as (fn & Hfn & ->).
    repeat split; auto; try discriminate. eauto.
  - destruct t as [n|s]; destruct Hres as (Hmode & _);
      repeat split; cbn; auto; try discriminate; try congruence;
      intros [H|H]; discriminate.
  - destruct t as [n|s], p as [c|]; destruct Hres as (Hmode & _);
      repeat split; cbn; auto; try discriminate; try congruence;
      intros [H|H]; discriminate.
Qed.

(** ** What is written, and where *)

Lemma startsWith_append t rest : Js.startsWith t (t ++ rest) = true.
Proof.
  induction t as [|a t IH]; cbn; [reflexivity|].
  now rewrite Ascii.eqb_refl, IH.
Qed.

Lemma includes_unfold s t :
  Js.includes s t =
  Js.startsWith t s ||
  match s with
  | EmptyString => false
  | String _ s' => Js.includes s' t
  end.
Proof. destruct s; reflexivity. Qed.

Lemma includes_append t rest : Js.includes (t ++ rest) t = true.
Proof. now rewrite includes_unfold, startsWith_append. Qed.

(** X4: every write of a run carries the tag, a line break and the
    message as body, so a comment with that body is recognised by the
    scans. *)
Theorem written_body_carries_tag config message r :
  In r (requests (postComment config message)) ->
  is_write r = true ->
  write_body r = Some (getCommentTag config ++ Js.LF ++ message) /\
  forall i,
    body_includes (getCommentTag config) {| id := i; body := write_body r |}
    = true.
Proof.
  intros Hin Hw.
  assert (Hbody :
    write_body r = Some (getCommentTag config ++ Js.LF ++ message)).
  { destruct (in_requests_cases _ _ _ Hin)
      as [(Hs & _) | [(t & k & _ & _ & ->) | (t & p & _ & _ & -> & _)]].
    - now rewrite (search_is_no_write _ Hs) in Hw.
    - destruct t; discriminate.
    - destruct t, p; reflexivity. }
  split; [exact Hbody|]. intros i. unfold body_includes. cbn [body].
  rewrite Hbody. apply includes_append.
Qed.

(** X5: an update is issued only with [updateComment] set, and only on
    the id of a comment that the platform listed for the resolved target
    and whose body contains the tag. *)
Theorem updates_only_tagged_listed_comments config message r i :
  In r (requests (postComment config message)) ->
  updated_id r = Some i ->
  updateComment (inputs config) = true /\
  exists t page c,
    resolves config t /\
    In (Returned page)
       (first_page (listing_of config t) :: next_pages (listing_of config t))
    /\ In c page /\ id c = i /\
    body_includes (getCommentTag config) c = true.
Proof.
  intros Hin Hid.
  destruct (in_requests_cases _ _ _ Hin)
    as [(Hs & _) | [(t & k & _ & _ & ->) | (t & p & Hres & Hl & -> & _)]].
  - destruct r; discriminate.
  - destruct t; discriminate.
  - destruct p as [c|]; [|destruct t; discriminate].
    destruct (lookup_picks _ _ _ Hl) as (Hupd & page & Hpage & Hc & Hb).
    split; [exact Hupd|]. exists t, page, c. repeat split; auto.
    destruct t; cbn in Hid; congruence.
Qed.

Lemma untagged_none tag page c :
  untagged tag page -> In c page -> body_includes tag c = false.
Proof. unfold untagged. intros H Hin. exact (find_none _ _ H _ Hin). Qed.

(** X6: a create is issued only on a resolved target, and with
    [updateComment] set only after every page of the listing was answered
    and no listed comment contains the tag. *)
Theorem creates_only_without_tagged_comment config message r :
  In r (requests (postComment config message)) ->
  is_create r = true ->
  exists t,
    resolves config t /\
    r = create_of config t (getCommentTag config ++ Js.LF ++ message) /\
    (updateComment (inputs config) = true ->
     exists pages,
       answers (listing_of config t) pages /\
       forall page c, In page pages -> In c page ->
                      body_includes (getCommentTag config) c = false).
Proof.
  intros Hin Hcr.
  destruct (in_requests_cases _ _ _ Hin)
    as [(Hs & _) | [(t & k & _ & _ & ->) | (t & p & Hres & Hl & -> & _)]].
  - now rewrite (search_not_create _ Hs) in Hcr.
  - destruct t; discriminate.
  - destruct p as [c|]; [destruct t; discriminate|].
    exists t. repeat split; auto. intros Hupd.
    destruct (lookup_none _ _ Hl Hupd) as (pages & Hans & Hall).
    exists pages. split; [exact Hans|]. intros page c Hpage Hc.
    rewrite Forall_forall in Hall. eapply untagged_none; eauto.
Qed.

(** X7: when a run issues a write, the run settles exactly as the
    platform answers that write: it returns normally when the write is
    accepted and rejects with the platform's error otherwise. *)
Theorem outcome_is_the_write_answer config message w :
  In w (requests (postComment config message)) ->
  is_write w = true ->
  write_answer (octokit config) w
  = Some (settled (postComment config message)).
Proof.
  intros Hin Hw.
  destruct (in_requests_cases _ _ _ Hin)
    as [(Hs & _) | [(t & k & _ & _ & ->) | (t & p & _ & _ & -> & ->)]].
  - now rewrite (search_is_no_write _ Hs) in Hw.
  - destruct t; discriminate.
  - destruct t, p; reflexivity.
Qed.

(** ** Rejections *)

Lemma getPullNumber_thrown config e :
  settled (getPullNumber config) = Thrown e ->
  exists q, search_issuesAndPullRequests (octokit config) q = Thrown e.
Proof.
  destruct (Js.truthy_opt Js.truthy_number (direct_number config)) eqn:Hd.
  - now rewrite (getPullNumber_direct _ Hd).
  - destruct (repository_full_name config) as [fn|] eqn:Hr.
    + destruct (Js.truthy_string fn) eqn:Hfn.
      * rewrite (getPullNumber_search _ _ Hd Hr Hfn). cbn [settled snd].
        destruct (search_issuesAndPullRequests _ _) eqn:E; [discriminate|].
        intros [= <-]. eauto.
      * rewrite (getPullNumber_no_repository _ Hd); [discriminate|].
        now rewrite Hr.
    + rewrite (getPullNumber_no_repository _ Hd); [discriminate|].
      now rewrite Hr.
Qed.

Lemma write_answer_write_of config t previousComment message :
  exists a,
    write_answer (octokit config) (write_of config t previousComment message)
    = Some a.
Proof. destruct t, previousComment; eexists; reflexivity. Qed.

Lemma rejection_source config message e :
  settled (postComment config message) = Thrown e ->
  rejected_by_platform config e.
Proof.
  rewrite postComment_by_route.
  destruct (route config) as [| | | |t]; try discriminate.
  - rewrite settled_bind.
    destruct (settled (getPullNumber config)) as [o|e'] eqn:E;
      [discriminate|].
    intros [= <-]. left. now apply getPullNumber_thrown.
  - cbn [settled snd]. rewrite write_phase_settled.
    destruct (settled (lookup config t)) as [p|e'] eqn:Hl.
    + destruct (write_answer_write_of config t p message) as [a Ha].
      rewrite Ha. cbn. intros ->. right. right. eauto.
    + intros [= <-]. right. left. exists t.
      now destruct (lookup_thrown _ _ _ Hl).
Qed.

Lemma paginate_from_thrown_at req : forall next n cur e,
  settled (paginate_from req n cur next) = Thrown e ->
  exists j,
    trace (paginate_from req n cur next) = page_events req n (S j) /\
    nth_error (cur :: next) j = Some (Thrown e).
Proof.
  induction next as [|p next IH]; intros n cur e.
  - destruct cur as [d|e']; cbn; [discriminate|].
    intros [= <-]. exists 0%nat. split; reflexivity.
  - destruct cur as [d|e'].
    + cbn [paginate_from]. rewrite settled_bind, trace_bind.
      cbn [settled request snd]. rewrite settled_bind, trace_bind.
      destruct (settled (paginate_from req (S n) p next)) as [more|e0] eqn:E;
        [discriminate|].
      intros [= <-]. destruct (IH _ _ _ E) as (j & Htr & Hnth).
      exists (S j). rewrite Htr. split; reflexivity || exact Hnth.
    + cbn. intros [= <-]. exists 0%nat. split; reflexivity.
Qed.

Lemma scan_pages_thrown_at req tag : forall next n cur e,
  settled (scan_pages req tag n cur next) = Thrown e ->
  exists j,
    trace (scan_pages req tag n cur next) = page_events req n (S j) /\
    nth_error (cur :: next) j = Some (Thrown e).
Proof.
  induction next as [|p next IH]; intros n cur e.
  - destruct cur as [d|e']; cbn.
    + destruct (find (body_includes tag) d); discriminate.
    + intros [= <-]. exists 0%nat. split; reflexivity.
  - destruct cur as [d|e'].
    + cbn [scan_pages]. rewrite settled_bind, trace_bind.
      cbn [settled request snd].
      destruct (find (body_includes tag) d); [discriminate|].
      intros H. destruct (IH _ _ _ H) as (j & Htr & Hnth).
      exists (S j). rewrite Htr. split; reflexivity || exact Hnth.
    + cbn. intros [= <-]. exists 0%nat. split; reflexivity.
Qed.

Lemma lookup_thrown_at config t e :
  settled (lookup config t) = Thrown e ->
  exists j,
    trace (lookup config t) = page_events (listing_request config t) 1 (S j)
    /\ rejects (octokit config) (listing_request config t (S j)) e.
Proof.
  unfold lookup. destruct (updateComment (inputs config)); [|discriminate].
  destruct t as [n|s]; cbn [previous_comment_scan listing_request rejects].
  - unfold fetchPreviousPrComment, paginate. rewrite settled_bind, trace_bind.
    destruct (settled (paginate_from _ _ _ _)) as [cs|e'] eqn:E;
      [discriminate|].
    intros [= <-]. destruct (paginate_from_thrown_at _ _ _ _ _ E)
      as (j & Htr & Hnth).
    exists j. rewrite Htr. split; [reflexivity|].
    now rewrite Nat.sub_succ, Nat.sub_0_r.
  - unfold fetchPreviousCommitComment. intros H.
    destruct (scan_pages_thrown_at _ _ _ _ _ _ H) as (j & Htr & Hnth).
    exists j. rewrite Htr. split; [reflexivity|].
    now rewrite Nat.sub_succ, Nat.sub_0_r.
Qed.

Lemma getPullNumber_thrown_at config e :
  settled (getPullNumber config) = Thrown e ->
  exists q,
    requests (getPullNumber config) = [SearchIssuesAndPullRequests q] /\
    search_issuesAndPullRequests (octokit config) q = Thrown e.
Proof.
  destruct (Js.truthy_opt Js.truthy_number (direct_number config)) eqn:Hd.
  - now rewrite (getPullNumber_direct _ Hd).
  - destruct (repository_full_name config) as [fn|] eqn:Hr.
    + destruct (Js.truthy_string fn) eqn:Hfn.
      * rewrite (getPullNumber_search _ _ Hd Hr Hfn). cbn [settled snd].
        destruct (search_issuesAndPullRequests _ _) eqn:E; [discriminate|].
        intros [= <-]. exists (search_query config fn). split; auto.
      * rewrite (getPullNumber_no_repository _ Hd); [discriminate|].
        now rewrite Hr.
    + rewrite (getPullNumber_no_repository _ Hd); [discriminate|].
      now rewrite Hr.
Qed.

Lemma page_requests_last req from j :
  page_requests req from (S j)
  = (page_requests req from j ++ [req (from + j)%nat])%list.
Proof. unfold page_requests. now rewrite seq_S, map_app. Qed.

(** X8: a run raises no error of its own: when it is rejected with [e],
    the last request it issued is one that the platform answered with
    [e], be it the search, a page of the listing or the write. *)
Theorem rejections_come_from_the_platform config message e :
  settled (postComment config message) = Thrown e ->
  exists earlier r,
    requests (postComment config message) = (earlier ++ [r])%list /\
    rejects (octokit config) r e.
Proof.
  rewrite postComment_by_route.
  destruct (route config) as [| | | |t]; try discriminate.
  - rewrite settled_bind, requests_bind.
    destruct (settled (getPullNumber config)) as [o|e'] eqn:E;
      [discriminate|].
    intros [= <-]. destruct (getPullNumber_thrown_at _ _ E) as (q & -> & Hq).
    exists [], (SearchIssuesAndPullRequests q). split; [reflexivity | exact Hq].
  - cbn [settled snd]. rewrite write_phase_settled, requests_pair,
      write_phase_trace, flat_map_app.
    destruct (settled (lookup config t)) as [p|e'] eqn:Hl.
    + destruct (write_answer_write_of config t p message) as [a Ha].
      rewrite Ha. cbn [answer_or_void]. intros ->.
      exists (flat_map rest_of (resolution_trace config t)
                ++ flat_map rest_of (trace (lookup config t)))%list,
        (write_of config t p message).
      split; [now rewrite <- app_assoc|].
      destruct t, p; exact Ha.
    + intros [= <-]. destruct (lookup_thrown_at _ _ _ Hl) as (j & Htr & Hrej).
      rewrite Htr, flat_map_page_events, page_requests_last.
      exists (flat_map rest_of (resolution_trace config t)
                ++ page_requests (listing_request config t) 1 j)%list,
        (listing_request config t (S j)).
      split; [|exact Hrej].
      cbn [flat_map]. now rewrite app_nil_r, <- app_assoc.
Qed.

(** X9: on a platform that answers every request, every run returns
    normally, and a run with a resolved target issues exactly one write. *)
Theorem healthy_platform_run config message :
  healthy (octokit config) ->
  settled (postComment config message) = Returned tt /\
  forall t, resolves config t ->
            exists w, filter is_write (requests (postComment config message))
                      = [w].
Proof.
  intros (Hsearch & Hlist & Hwrite).
  assert (Hlookup : forall t, exists p, settled (lookup config t) = Returned p).
  { intros t. destruct (settled (lookup config t)) as [p|e] eqn:Hl; [eauto|].
    destruct (lookup_thrown _ _ _ Hl) as [_ Hin].
    destruct (Hlist (context_repo (context config)) t) as [pages Hans].
    rewrite listing_of_scanned in Hans. unfold answers in Hans.
    rewrite Hans in Hin. apply in_map_iff in Hin.
    destruct Hin as (x & Hx & _). discriminate. }
  split.
  - destruct (settled (postComment config message)) as [[]|e] eqn:E;
      [reflexivity|].
    exfalso.
    destruct (rejection_source _ _ _ E)
      as [[q Hq] | [[t Hin] | [r Hr]]].
    + destruct (Hsearch q) as [data Hdata]. congruence.
    + destruct (Hlist (context_repo (context config)) t) as [pages Hans].
      rewrite listing_of_scanned in Hans. unfold answers in Hans.
      rewrite Hans in Hin. apply in_map_iff in Hin.
      destruct Hin as (x & Hx & _). discriminate.
    + specialize (Hwrite _ _ Hr). discriminate.
  - intros t Hres. apply route_resolved in Hres.
    destruct (postComment_requests_by_route config message) as (k & _ & Hreq).
    rewrite Hreq, Hres. destruct (Hlookup t) as [p Hp].
    exists (write_of config t p message).
    rewrite !filter_app.
    rewrite (filter_out is_write is_search _
               (resolution_are_searches config t) search_is_no_write).
    rewrite (filter_out is_write is_listing _
               (page_requests_are_listings config t 1 k) listing_is_no_write).
    unfold written. rewrite Hp. cbn. now rewrite is_write_write_of.
Qed.

(** X10: on the pull-request path, a rejected search rejects the run with
    the same error, right after the search: no listing and no write
    follow. *)
Theorem search_rejection_propagates config message fn e :
  commentMode (inputs config) = "pr" ->
  Js.truthy_opt Js.truthy_number (direct_number config) = false ->
  repository_full_name config = Some fn ->
  Js.truthy_string fn = true ->
  search_issuesAndPullRequests (octokit config) (search_query config fn)
    = Thrown e ->
  postComment config message =
  ([Debug "Not running on a PR, looking for a pull request number via search";
    Rest (SearchIssuesAndPullRequests (search_query config fn))],
   Thrown e).
Proof.
  intros Hmode Hd Hr Hfn Hs.
  rewrite (postComment_pr _ _ Hmode). unfold postCommentOnPr.
  rewrite (getPullNumber_search _ _ Hd Hr Hfn), Hs. reflexivity.
Qed.

Lemma paginate_from_first_rejection req : forall pre n cur next e post,
  cur :: next = (map Returned pre ++ Thrown e :: post)%list ->
  paginate_from req n cur next
  = (page_events req n (S (List.length pre)), Thrown e).
Proof.
  induction pre as [|d pre IH]; intros n cur next e post Hl.
  - cbn in Hl. injection Hl as -> ->. destruct post; reflexivity.
  - cbn in Hl. injection Hl as -> Hnext.
    destruct next as [|p next]; [destruct pre; discriminate|].
    cbn [paginate_from]. rewrite (IH (S n) p next e post Hnext).
    reflexivity.
Qed.

Lemma scan_pages_first_rejection req tag : forall pre n cur next e post,
  cur :: next = (map Returned pre ++ Thrown e :: post)%list ->
  Forall (untagged tag) pre ->
  scan_pages req tag n cur next
  = (page_events req n (S (List.length pre)), Thrown e).
Proof.
  induction pre as [|d pre IH]; intros n cur next e post Hl Hpre.
  - cbn in Hl. injection Hl as -> ->. destruct post; reflexivity.
  - cbn in Hl. injection Hl as -> Hnext.
    apply Forall_cons_iff in Hpre. destruct Hpre as [Hd Hpre'].
    unfold untagged in Hd.
    destruct next as [|p next]; [destruct pre; discriminate|].
    cbn [scan_pages]. unfold bind at 1. cbn [request fst snd]. rewrite Hd.
    rewrite (IH (S n) p next e post Hnext Hpre'). reflexivity.
Qed.

(** X11: with [updateComment] set, the first rejected page of the listing
    rejects the run with its error, after the pages up to it were
    requested and before any write: on the pull-request path even when an
    earlier page has a comment with the tag, on the commit path when no
    earlier page has one. *)
Theorem listing_rejection_propagates config message t pre e post :
  resolves config t ->
  updateComment (inputs config) = true ->
  first_page (listing_of config t) :: next_pages (listing_of config t)
    = (map Returned pre ++ Thrown e :: post)%list ->
  match t with
  | OnPr _ => True
  | OnCommit _ => Forall (untagged (getCommentTag config)) pre
  end ->
  settled (postComment config message) = Thrown e /\
  requests (postComment config message)
    = (resolution_requests config t
         ++ page_requests (listing_request config t) 1 (S (List.length pre)))
      %list.
Proof.
  intros Hres Hupd Hl Hpre.
  assert (Hlookup :
    lookup config t
    = (page_events (listing_request config t) 1 (S (List.length pre)),
       Thrown e)).
  { unfold lookup. rewrite Hupd.
    destruct t as [n|s];
      cbn [previous_comment_scan listing_of listing_request] in *.
    - unfold fetchPreviousPrComment, paginate.
      now rewrite (paginate_from_first_rejection _ _ _ _ _ _ _ Hl).
    - unfold fetchPreviousCommitComment.
      now rewrite (scan_pages_first_rejection _ _ _ _ _ _ _ _ Hl Hpre). }
  apply route_resolved in Hres.
  rewrite postComment_by_route, Hres. split.
  - cbn [settled snd]. now rewrite write_phase_settled, Hlookup.
  - rewrite requests_pair, write_phase_trace, Hlookup.
    cbn [trace settled fst snd]. rewrite app_nil_r, flat_map_page_events.
    f_equal. destruct t; reflexivity.
Qed.

Lemma pages_scanned_le tag pages :
  (pages_scanned tag pages <= List.length pages)%nat.
Proof.
  induction pages as [|p pages IH]; cbn; [lia|].
  destruct (find (body_includes tag) p); lia.
Qed.

Lemma pages_scanned_untagged tag pages :
  Forall (untagged tag) pages ->
  pages_scanned tag pages = List.length pages.
Proof.
  induction 1 as [|p pages Hp _ IH]; cbn; [reflexivity|].
  unfold untagged in Hp. now rewrite Hp, IH.
Qed.

(** X12: with [updateComment] set and every page answered, the
    pull-request path requests every page, wherever the tag is, while the
    commit path requests the pages up to the first one with a tagged
    comment: never more than the pull-request path would, and all of them
    when no page has one. *)
Theorem lookup_requests_of_answered_listing config message t pages :
  resolves config t ->
  updateComment (inputs config) = true ->
  answers (listing_of config t) pages ->
  filter is_listing (requests (postComment config message))
  = page_requests (listing_request config t) 1
      (match t with
       | OnPr _ => List.length pages
       | OnCommit _ => pages_scanned (getCommentTag config) pages
       end) /\
  (pages_scanned (getCommentTag config) pages <= List.length pages)%nat /\
  (Forall (untagged (getCommentTag config)) pages ->
   pages_scanned (getCommentTag config) pages = List.length pages).
Proof.
  intros Hres Hupd Hans.
  split; [|split; [apply pages_scanned_le | apply pages_scanned_untagged]].
  rewrite (postComment_requests_lookup _ message _ _ Hres Hupd Hans).
  rewrite !filter_app.
  rewrite (filter_out is_listing is_search _
             (resolution_are_searches config t) search_not_listing).
  rewrite (filter_all is_listing _ (lookup_are_listings config t pages)).
  cbn [app filter].
  assert (Hw : forall p, is_listing (write_of config t p message) = false).
  { intros p. apply write_not_listing, is_write_write_of. }
  rewrite Hw. now rewrite app_nil_r.
Qed.

(** ** A later run *)

(** X13: a comment written by one run is found by a later run whose
    configuration has the same five identity fields, whatever the two
    messages: with [updateComment] set and the listing answered, the
    later run updates a tagged comment and creates none; it updates the
    written comment itself when no other listed comment carries the tag. *)
Theorem written_comment_is_updated_by_later_run
    config1 message1 config2 message2 t pages i :
  cdktfVersion (inputs config1) = cdktfVersion (inputs config2) ->
  terraformVersion (inputs config1) = terraformVersion (inputs config2) ->
  workingDirectory (inputs config1) = workingDirectory (inputs config2) ->
  stackName (inputs config1) = stackName (inputs config2) ->
  mode (inputs config1) = mode (inputs config2) ->
  updateComment (inputs config2) = true ->
  resolves config2 t ->
  answers (listing_of config2 t) pages ->
  In {| id := i;
        body := Some (getCommentTag config1 ++ Js.LF ++ message1) |}
     (List.concat pages) ->
  exists previous,
    find (body_includes (getCommentTag config2)) (List.concat pages)
      = Some previous /\
    filter is_update (requests (postComment config2 message2))
      = [update_of config2 t (id previous)
           (getCommentTag config2 ++ Js.LF ++ message2)] /\
    filter is_create (requests (postComment config2 message2)) = [] /\
    ((forall c, In c (List.concat pages) ->
                body_includes (getCommentTag config2) c = true -> id c = i) ->
     id previous = i).
Proof.
  intros H1 H2 H3 H4 H5 Hupd Hres Hans Hin.
  assert (Htag : getCommentTag config1 = getCommentTag config2).
  { unfold getCommentTag. now rewrite H1, H2, H3, H4, H5. }
  rewrite Htag in Hin.
  assert (Hc : body_includes (getCommentTag config2)
                 {| id := i;
                    body := Some (getCommentTag config2 ++ Js.LF ++ message1) |}
               = true).
  { unfold body_includes. cbn [body]. apply includes_append. }
  destruct (find_of_In _ _ _ Hin Hc) as [previous Hfind].
  exists previous. split; [exact Hfind|].
  rewrite (postComment_requests_lookup _ message2 _ _ Hres Hupd Hans), Hfind.
  rewrite (filter_lookup_run is_update _ _ _ _
             search_not_update listing_not_update).
  rewrite (filter_lookup_run is_create _ _ _ _
             search_not_create listing_not_create).
  destruct (find_some _ _ Hfind) as [Hpin Hpb].
  destruct t; repeat split; auto.
Qed.

(** ** Failed steps *)

Lemma getPullNumber_logs config m :
  ~ In (SetFailed m) (trace (getPullNumber config)).
Proof.
  destruct (Js.truthy_opt Js.truthy_number (direct_number config)) eqn:Hd.
  - rewrite (getPullNumber_direct _ Hd). intros [].
  - destruct (repository_full_name config) as [fn|] eqn:Hr.
    + destruct (Js.truthy_string fn) eqn:Hfn.
      * rewrite (getPullNumber_search _ _ Hd Hr Hfn). cbn [trace fst].
        destruct (search_issuesAndPullRequests _ _); cbn;
          intuition discriminate.
      * rewrite (getPullNumber_no_repository _ Hd);
          [cbn; intuition discriminate|].
        now rewrite Hr.
    + rewrite (getPullNumber_no_repository _ Hd);
        [cbn; intuition discriminate|].
      now rewrite Hr.
Qed.

Lemma route_unrecognized config :
  route config = Unrecognized ->
  commentMode (inputs config) <> "none" /\
  commentMode (inputs config) <> "pr" /\
  commentMode (inputs config) <> "commit".
Proof.
  unfold route.
  destruct (String.eqb (commentMode (inputs config)) "none") eqn:Hn;
    [discriminate|].
  destruct (String.eqb (commentMode (inputs config)) "pr") eqn:Hp.
  - destruct (settled (getPullNumber config)) as [[n|]|e]; try discriminate.
    destruct (Js.truthy_number n); discriminate.
  - destruct (String.eqb (commentMode (inputs config)) "commit") eqn:Hc.
    + destruct (sha (context config)) as [s|]; [|discriminate].
      destruct (Js.truthy_string s); discriminate.
    + intros _. now rewrite <- !String.eqb_neq.
Qed.

(** X14: a failed step is reported only for an unrecognized mode, and is
    then all the run does; in the modes "none", "pr" and "commit" no run
    reports one, not even when the platform rejects a request. *)
Theorem setFailed_only_for_unrecognized_mode config message m :
  In (SetFailed m) (trace (postComment config message)) ->
  commentMode (inputs config) <> "none" /\
  commentMode (inputs config) <> "pr" /\
  commentMode (inputs config) <> "commit" /\
  postComment config message = ([SetFailed m], Returned tt).
Proof.
  rewrite postComment_by_route.
  destruct (route config) as [| | | |t] eqn:Hroute; cbn [trace fst].
  - intros [H | []]. discriminate.
  - intros [H | []]. destruct (route_unrecognized _ Hroute) as (? & ? & ?).
    injection H as <-. auto.
  - intros H. exfalso. rewrite trace_bind in H.
    destruct (settled (getPullNumber config)).
    + apply in_app_iff in H. destruct H as [H | [H | []]];
        [now apply getPullNumber_logs in H | discriminate].
    + now apply getPullNumber_logs in H.
  - intros [H | []]. discriminate.
  - intros H. exfalso. apply in_app_iff in H. destruct H as [H | H].
    + destruct t; cbn in H; [now apply getPullNumber_logs in H | destruct H].
    + rewrite write_phase_trace in H. apply in_app_iff in H.
      destruct H as [H | H].
      * destruct (lookup_trace config t) as (k & _ & _ & _ & Htr).
        rewrite Htr in H. unfold page_events in H. apply in_map_iff in H.
        destruct H as (j & Hj & _). discriminate.
      * destruct (settled (lookup config t)); cbn in H;
          intuition discriminate.
Qed.

(** ** Where the pull-request number comes from *)

(** X15: a number that [getPullNumber] returns is either the number of
    the event, found without any request, or, when the event has none and
    names a repository, the number of the first hit of the one search. *)
Theorem pull_number_provenance config n :
  settled (getPullNumber config) = Returned (Some n) ->
  (direct_number config = Some n /\ n <> 0 /\
   requests (getPullNumber config) = [])
  \/
  (Js.truthy_opt Js.truthy_number (direct_number config) = false /\
   exists fn data first others,
     repository_full_name config = Some fn /\
     fn <> "" /\
     requests (getPullNumber config)
       = [SearchIssuesAndPullRequests (search_query config fn)] /\
     search_issuesAndPullRequests (octokit config) (search_query config fn)
       = Returned data /\
     items data = first :: others /\
     number first = n).
Proof.
  destruct (Js.truthy_opt Js.truthy_number (direct_number config)) eqn:Hd.
  - rewrite (getPullNumber_direct _ Hd). cbn [settled snd]. intros [= H].
    left. repeat split; auto.
    rewrite H in Hd. cbn in Hd. unfold Js.truthy_number in Hd.
    apply negb_true_iff, Z.eqb_neq in Hd. exact Hd.
  - destruct (repository_full_name config) as [fn|] eqn:Hr.
    + destruct (Js.truthy_string fn) eqn:Hfn.
      * rewrite (getPullNumber_search _ _ Hd Hr Hfn). cbn [settled snd].
        destruct (search_issuesAndPullRequests _ _) as [data|e] eqn:Hs;
          [|discriminate].
        destruct (items data) as [|first others] eqn:Hi; [discriminate|].
        intros [= <-]. right. split; [reflexivity|].
        exists fn, data, first, others. repeat split; auto.
        intros ->. discriminate.
      * rewrite (getPullNumber_no_repository _ Hd); [discriminate|].
        now rewrite Hr.
    + rewrite (getPullNumber_no_repository _ Hd); [discriminate|].
      now rewrite Hr.
Qed.

(** ** Containing the tag *)

Lemma append_assoc (a b c : string) : (a ++ b) ++ c = a ++ (b ++ c).
Proof. induction a as [|x a IH]; cbn; [reflexivity | now rewrite IH]. Qed.

Lemma length_append (a b : string) :
  String.length (a ++ b) = (String.length a + String.length b)%nat.
Proof. induction a as [|x a IH]; cbn; [reflexivity | now rewrite IH]. Qed.

Lemma startsWith_spec p s :
  Js.startsWith p s = true <-> exists rest, s = p ++ rest.
Proof.
  revert s. induction p as [|a p IH]; intros s; cbn.
  - split; [eauto | reflexivity].
  - destruct s as [|b s]; [split; [discriminate | now intros [? ?]]|].
    rewrite andb_true_iff, Ascii.eqb_eq, IH. split.
    + intros (-> & rest & ->). eauto.
    + intros (rest & [= -> ->]). eauto.
Qed.

Lemma includes_spec s t :
  Js.includes s t = true <-> exists pre post, s = pre ++ t ++ post.
Proof.
  split.
  - induction s as [|c s IH]; rewrite includes_unfold, orb_true_iff.
    + intros [H | H]; [|discriminate].
      apply startsWith_spec in H. destruct H as [rest H].
      destruct t; [now exists "", "" | discriminate].
    + intros [H | H].
      * apply startsWith_spec in H. destruct H as [rest ->]. now exists "", rest.
      * destruct (IH H) as (pre & post & ->). now exists (String c pre), post.
  - intros (pre & post & ->). induction pre as [|c pre IH].
    + exact (includes_append t post).
    + rewrite includes_unfold. cbn. rewrite IH. apply orb_true_r.
Qed.

Lemma body_includes_short tag c b :
  body c = Some b ->
  (String.length b < String.length tag)%nat ->
  body_includes tag c = false.
Proof.
  intros Hb Hlen. unfold body_includes. rewrite Hb.
  destruct (Js.includes b tag) eqn:E; [|reflexivity].
  apply includes_spec in E. destruct E as (pre & post & ->).
  rewrite !length_append in Hlen. lia.
Qed.

(** X16: a comment matches the tag exactly when it has a body in which
    the tag occurs as a contiguous piece; a body shorter than the tag, the
    empty body included, never matches. *)
Theorem body_includes_substring tag c :
  (body_includes tag c = true <->
   exists pre post, body c = Some (pre ++ tag ++ post)) /\
  (forall b, body c = Some b ->
             (String.length b < String.length tag)%nat ->
             body_includes tag c = false).
Proof.
  split.
  - unfold body_includes. destruct (body c) as [b|].
    + rewrite includes_spec. split.
      * intros (pre & post & ->). eauto.
      * intros (pre & post & [= ->]). eauto.
    + split; [discriminate | now intros (? & ? & ?)].
  - intros b Hb Hlen. now apply (body_includes_short tag c b).
Qed.

(** ** The shape of the tag *)

Lemma le_bytes_range n x :
  Forall (fun b => 0 <= b < 256) (Md5.le_bytes n x).
Proof.
  unfold Md5.le_bytes. apply Forall_forall. intros b Hb.
  apply in_map_iff in Hb. destruct Hb as (k & <- & _).
  apply Z.mod_pos_bound. lia.
Qed.

Lemma digest_bytes msg :
  List.length (Md5.digest msg) = 16%nat /\
  Forall (fun b => 0 <= b < 256) (Md5.digest msg).
Proof.
  unfold Md5.digest. cbv zeta.
  destruct (Md5.blocks _ _ _) as [a b c d]. split.
  - reflexivity.
  - repeat (apply Forall_app; split); apply le_bytes_range.
Qed.

Lemma hex_digit_lower n :
  0 <= n < 16 -> is_hex_lower (Js.hex_digit n) = true.
Proof.
  intros H. rewrite <- (Z2Nat.id n) by lia.
  assert (Hk : (Z.to_nat n < 16)%nat) by lia. revert Hk.
  generalize (Z.to_nat n) as k. intros k Hk.
  do 16 (destruct k as [|k]; [reflexivity|]). lia.
Qed.

Lemma hex_shape bs :
  Forall (fun b => 0 <= b < 256) bs ->
  String.length (Md5.hex bs) = (2 * List.length bs)%nat /\
  all_chars is_hex_lower (Md5.hex bs) = true.
Proof.
  induction 1 as [|b bs Hb _ [IHl IHc]]; [split; reflexivity|].
  cbn [Md5.hex fold_right]. fold (Md5.hex bs). unfold Js.hex_byte.
  cbn [append String.length all_chars List.length]. rewrite IHl, IHc.
  split; [lia|].
  rewrite !hex_digit_lower; [reflexivity | |].
  - apply Z.mod_pos_bound. lia.
  - split; [apply Z.div_pos; lia | apply Z.div_lt_upper_bound; lia].
Qed.

Lemma hashString_shape str :
  String.length (hashString str) = 32%nat /\
  all_chars is_hex_lower (hashString str) = true.
Proof.
  unfold hashString, Md5.hexdigest.
  destruct (digest_bytes (Md5.bytes_of str)) as [Hlen Hrange].
  destruct (hex_shape _ Hrange) as [Hl Hc]. rewrite Hl, Hlen. auto.
Qed.

(** X17: the tag is the fixed opening, 32 lowercase hexadecimal digits
    and the fixed closing of an HTML comment, 84 characters in all, for
    every configuration; so a body of fewer than 84 characters is never
    taken for a previous comment. *)
Theorem getCommentTag_shape config :
  (exists h,
     getCommentTag config = tag_prefix ++ h ++ tag_suffix /\
     String.length h = 32%nat /\
     all_chars is_hex_lower h = true) /\
  String.length (getCommentTag config) = 84%nat /\
  (forall c b, body c = Some b -> (String.length b < 84)%nat ->
               body_includes (getCommentTag config) c = false).
Proof.
  assert (Hshape : exists h,
     getCommentTag config = tag_prefix ++ h ++ tag_suffix /\
     String.length h = 32%nat /\
     all_chars is_hex_lower h = true).
  { exists (hashString (options_json config)).
    split; [reflexivity | apply hashString_shape]. }
  assert (Hlen : String.length (getCommentTag config) = 84%nat).
  { destruct Hshape as (h & -> & Hl & _).
    rewrite !length_append, Hl. reflexivity. }
  split; [exact Hshape|]. split; [exact Hlen|].
  intros c b Hb Hshort.
  apply (body_includes_short (getCommentTag config) c b Hb).
  now rewrite Hlen.
Qed.

(** ** The serialization is unambiguous *)

Lemma unescape_escape_char c rest :
  unescape_char (Js.json_escape_char c ++ rest) = Some (c, rest).
Proof.
  destruct c as [[] [] [] [] [] [] [] []]; reflexivity.
Qed.

Lemma json_escape_inj : forall s1 s2 r1 r2,
  Js.json_escape s1 ++ Js.DQ ++ r1 = Js.json_escape s2 ++ Js.DQ ++ r2 ->
  s1 = s2 /\ r1 = r2.
Proof.
  induction s1 as [|c1 s1 IH]; intros [|c2 s2] r1 r2 H;
    cbn [Js.json_escape] in H; rewrite ?append_assoc in H.
  - injection H as ->. auto.
  - apply (f_equal unescape_char) in H.
    rewrite unescape_escape_char in H. discriminate.
  - apply (f_equal unescape_char) in H.
    rewrite unescape_escape_char in H. discriminate.
  - apply (f_equal unescape_char) in H.
    rewrite !unescape_escape_char in H.
    injection H as -> H. destruct (IH _ _ _ H) as [-> ->]. auto.
Qed.

Lemma options_json_inj config1 config2 :
  options_json config1 = options_json config2 ->
  cdktfVersion (inputs config1) = cdktfVersion (inputs config2) /\
  terraformVersion (inputs config1) = terraformVersion (inputs config2) /\
  workingDirectory (inputs config1) = workingDirectory (inputs config2) /\
  stackName (inputs config1) = stackName (inputs config2) /\
  mode (inputs config1) = mode (inputs config2).
Proof.
  unfold options_json, Js.JSON_stringify. cbn [Js.json_members].
  unfold Js.json_member, Js.json_string. cbn [fst snd].
  rewrite !append_assoc. intros H. injection H as H.
  apply json_escape_inj in H. destruct H as [H1 H]. injection H as H.
  apply json_escape_inj in H. destruct H as [H2 H]. injection H as H.
  apply json_escape_inj in H. destruct H as [H3 H]. injection H as H.
  apply json_escape_inj in H. destruct H as [H4 H]. injection H as H.
  apply json_escape_inj in H. destruct H as [H5 _].
  auto.
Qed.

Lemma append_inj_left (a b r s : string) :
  String.length a = String.length b -> a ++ r = b ++ s -> a = b.
Proof.
  revert b. induction a as [|x a IH]; intros [|y b]; cbn; try discriminate.
  - reflexivity.
  - intros [= Hlen] [= -> H]. now rewrite (IH _ Hlen H).
Qed.

Lemma append_inj_prefix (p a b : string) : p ++ a = p ++ b -> a = b.
Proof. induction p as [|x p IH]; cbn; [trivial | intros [= H]; auto]. Qed.

(** X18: the serialization of the five identity fields is unambiguous,
    so two configurations have the same tag only when they agree on the
    five fields or when their two different serializations have the same
    MD5 digest. *)
Theorem getCommentTag_injective_up_to_md5 config1 config2 :
  getCommentTag config1 = getCommentTag config2 ->
  (cdktfVersion (inputs config1) = cdktfVersion (inputs config2) /\
   terraformVersion (inputs config1) = terraformVersion (inputs config2) /\
   workingDirectory (inputs config1) = workingDirectory (inputs config2) /\
   stackName (inputs config1) = stackName (inputs config2) /\
   mode (inputs config1) = mode (inputs config2))
  \/
  (options_json config1 <> options_json config2 /\
   Md5.hexdigest (options_json config1) = Md5.hexdigest (options_json config2)).
Proof.
  intros H.
  destruct (string_dec (options_json config1) (options_json config2))
    as [Heq | Hneq]; [left; now apply options_json_inj|].
  right. split; [exact Hneq|].
  change (getCommentTag config1)
    with (tag_prefix ++ hashString (options_json config1) ++ tag_suffix) in H.
  change (getCommentTag config2)
    with (tag_prefix ++ hashString (options_json config2) ++ tag_suffix) in H.
  apply append_inj_prefix in H.
  pose proof (hashString_shape (options_json config1)) as [Hl1 _].
  pose proof (hashString_shape (options_json config2)) as [Hl2 _].
  eapply append_inj_left; [|exact H].
  unfold hashString in Hl1, Hl2. congruence.
Qed.

(** ** The message *)

Lemma strip_body_write_of config t previousComment message1 message2 :
  strip_body (write_of config t previousComment message1)
  = strip_body (write_of config t previousComment message2).
Proof. destruct t, previousComment; reflexivity. Qed.

(** X19: the message only fills the body of the write: two runs of one
    configuration with different messages issue the same requests up to
    that body, so the message never decides whether a comment is updated
    or created, nor where. *)
Theorem message_only_fills_the_body config message1 message2 :
  map strip_body (requests (postComment config message1))
  = map strip_body (requests (postComment config message2)).
Proof.
  rewrite !postComment_by_route.
  destruct (route config) as [| | | |t]; try reflexivity.
  rewrite !requests_pair, !write_phase_trace, !flat_map_app, !map_app.
  do 2 f_equal.
  destruct (settled (lookup config t)) as [p|e]; [|reflexivity].
  cbn. now rewrite (strip_body_write_of config t p message1 message2).
Qed.

(** ** When the search is made *)

(** X20: a run searches only in mode "pr", only when the event carries no
    pull-request number and names a repository, and then with the query
    [is:pr repo:<full_name> sha:<sha>], in which an undefined SHA reads
    [undefined]. *)
Theorem search_only_without_direct_number config message q :
  In (SearchIssuesAndPullRequests q) (requests (postComment config message)) ->
  commentMode (inputs config) = "pr" /\
  Js.truthy_opt Js.truthy_number (direct_number config) = false /\
  exists fn,
    repository_full_name config = Some fn /\ fn <> "" /\
    q = "is:pr repo:" ++ fn ++ " sha:"
          ++ match sha (context config) with
             | Some s => s
             | None => "undefined"
             end.
Proof.
  intros Hin.
  destruct (in_requests_cases _ _ _ Hin)
    as [(_ & Hmode & Hq) | [(t & k & _ & _ & Hr) | (t & p & _ & _ & Hr & _)]].
  - split; [exact Hmode|]. revert Hq.
    destruct (Js.truthy_opt Js.truthy_number (direct_number config)) eqn:Hd.
    + rewrite (getPullNumber_direct _ Hd). intros [].
    + split; [reflexivity|].
      destruct (repository_full_name config) as [fn|] eqn:Hr.
      * destruct (Js.truthy_string fn) eqn:Hfn.
        -- rewrite (getPullNumber_search _ _ Hd Hr Hfn) in Hq.
           exists fn. split; [reflexivity|].
           split; [intros ->; discriminate|].
           destruct (search_issuesAndPullRequests _ _);
             cbn in Hq; destruct Hq as [[= <-] | []]; reflexivity.
        -- rewrite (getPullNumber_no_repository _ Hd) in Hq;
             [destruct Hq | now rewrite Hr].
      * rewrite (getPullNumber_no_repository _ Hd) in Hq;
          [destruct Hq | now rewrite Hr].
  - destruct t; discriminate.
  - destruct t, p; discriminate.
Qed.

(** ** The further properties on the scenarios *)

Example scenario_pr_rejected_second_page :
  postComment Cases.pr_rejected_second_page "plan ok" =
  ([Rest (GetIssueComments Scenario.the_repo 42 1);
    Rest (GetIssueComments Scenario.the_repo 42 2)],
   Thrown "HttpError").
Proof. vm_compute. reflexivity. Qed.

Example scenario_pr_tag_on_first_page :
  requests (postComment Cases.pr_tag_on_first_page "plan ok") =
  [GetIssueComments Scenario.the_repo 42 1;
   GetIssueComments Scenario.the_repo 42 2;
   IssuesUpdateComment Scenario.the_repo 5 (Cases.tagged_body "plan ok")].
Proof. vm_compute. reflexivity. Qed.

Lemma listing_pages_in_order_witness :
  exists k,
    (1 <= k <= 4)%nat /\
    filter is_listing
      (requests (postComment Scenario.commit_previous_on_third_page "plan ok"))
    = page_requests
        (listing_request Scenario.commit_previous_on_third_page
           (OnCommit "abc123")) 1 k.
Proof.
  apply (listing_pages_in_order Scenario.commit_previous_on_third_page
           "plan ok" (OnCommit "abc123")).
  - repeat split.
  - reflexivity.
Defined.

Example scenario_pr_of_other_repository :
  requests (postComment Cases.pr_of_other_repository "plan ok") =
  [SearchIssuesAndPullRequests "is:pr repo:someone/else sha:abc123";
   IssuesCreateComment Scenario.the_repo 17 (Cases.tagged_body "plan ok")].
Proof. vm_compute. reflexivity. Qed.

Lemma requests_match_mode_witness :
  (is_search
     (SearchIssuesAndPullRequests "is:pr repo:someone/else sha:abc123")
   = false ->
   request_repo
     (SearchIssuesAndPullRequests "is:pr repo:someone/else sha:abc123")
   = Some (context_repo (context Cases.pr_of_other_repository))) /\
  (is_search
     (SearchIssuesAndPullRequests "is:pr repo:someone/else sha:abc123")
   = true ->
   exists fn,
     repository_full_name Cases.pr_of_other_repository = Some fn /\
     SearchIssuesAndPullRequests "is:pr repo:someone/else sha:abc123"
     = SearchIssuesAndPullRequests
         (search_query Cases.pr_of_other_repository fn)) /\
  (is_search
     (SearchIssuesAndPullRequests "is:pr repo:someone/else sha:abc123")
   = true \/
   on_issue_comments
     (SearchIssuesAndPullRequests "is:pr repo:someone/else sha:abc123")
   = true ->
   commentMode (inputs Cases.pr_of_other_repository) = "pr") /\
  (on_commit_comments
     (SearchIssuesAndPullRequests "is:pr repo:someone/else sha:abc123")
   = true ->
   commentMode (inputs Cases.pr_of_other_repository) = "commit").
Proof.
  apply (requests_match_mode Cases.pr_of_other_repository "plan ok").
  vm_compute. tauto.
Defined.

Lemma written_body_carries_tag_witness :
  write_body
    (IssuesCreateComment Scenario.the_repo 42 (Cases.tagged_body "plan ok"))
  = Some (getCommentTag Scenario.pr_without_previous ++ Js.LF ++ "plan ok") /\
  forall i,
    body_includes (getCommentTag Scenario.pr_without_previous)
      {| id := i;
         body := write_body
                   (IssuesCreateComment Scenario.the_repo 42
                      (Cases.tagged_body "plan ok")) |}
    = true.
Proof.
  apply (written_body_carries_tag Scenario.pr_without_previous "plan ok").
  - vm_compute. tauto.
  - reflexivity.
Defined.

Lemma updates_only_tagged_listed_comments_witness :
  updateComment (inputs Scenario.commit_with_previous) = true /\
  exists t page c,
    resolves Scenario.commit_with_previous t /\
    In (Returned page)
       (first_page (listing_of Scenario.commit_with_previous t)
          :: next_pages (listing_of Scenario.commit_with_previous t)) /\
    In c page /\ id c = 7 /\
    body_includes (getCommentTag Scenario.commit_with_previous) c = true.
Proof.
  apply (updates_only_tagged_listed_comments Scenario.commit_with_previous
           "plan ok"
           (ReposUpdateCommitComment Scenario.the_repo 7
              (Cases.tagged_body "plan ok")) 7).
  - vm_compute. tauto.
  - reflexivity.
Defined.

Lemma creates_only_without_tagged_comment_witness :
  exists t,
    resolves Scenario.pr_without_previous t /\
    IssuesCreateComment Scenario.the_repo 42 (Cases.tagged_body "plan ok")
    = create_of Scenario.pr_without_previous t
        (getCommentTag Scenario.pr_without_previous ++ Js.LF ++ "plan ok") /\
    (updateComment (inputs Scenario.pr_without_previous) = true ->
     exists pages,
       answers (listing_of Scenario.pr_without_previous t) pages /\
       forall page c, In page pages -> In c page ->
         body_includes (getCommentTag Scenario.pr_without_previous) c = false).
Proof.
  apply (creates_only_without_tagged_comment Scenario.pr_without_previous
           "plan ok").
  - vm_compute. tauto.
  - reflexivity.
Defined.

Lemma outcome_is_the_write_answer_witness :
  write_answer (octokit Scenario.pr_without_previous)
    (IssuesCreateComment Scenario.the_repo 42 (Cases.tagged_body "plan ok"))
  = Some (settled (postComment Scenario.pr_without_previous "plan ok")).
Proof.
  apply (outcome_is_the_write_answer Scenario.pr_without_previous "plan ok").
  - vm_compute. tauto.
  - reflexivity.
Defined.

Lemma rejections_come_from_the_platform_witness :
  exists earlier r,
    requests (postComment Cases.pr_rejected_second_page "plan ok")
      = (earlier ++ [r])%list /\
    rejects (octokit Cases.pr_rejected_second_page) r "HttpError".
Proof.
  apply (rejections_come_from_the_platform Cases.pr_rejected_second_page
           "plan ok" "HttpError").
  vm_compute. reflexivity.
Defined.

Lemma healthy_platform_run_witness :
  settled (postComment Scenario.pr_without_previous "plan ok") = Returned tt /\
  forall t, resolves Scenario.pr_without_previous t ->
            exists w,
              filter is_write
                (requests (postComment Scenario.pr_without_previous "plan ok"))
              = [w].
Proof.
  apply (healthy_platform_run Scenario.pr_without_previous "plan ok").
  split; [|split].
  - intros q. eexists. reflexivity.
  - intros repo [n|s].
    + exists [[Scenario.untagged_comment 1; Scenario.bodyless_comment 2];
              [Scenario.untagged_comment 3]]. reflexivity.
    + exists [[]]. reflexivity.
  - intros [] a; cbn; intros [= <-]; reflexivity.
Defined.

Lemma search_rejection_propagates_witness :
  postComment (Scenario.offline "pr" None (Some "acme/infra") (Some "abc123"))
    "plan ok"
  = ([Debug "Not running on a PR, looking for a pull request number via search";
      Rest (SearchIssuesAndPullRequests
              (search_query
                 (Scenario.offline "pr" None (Some "acme/infra")
                    (Some "abc123"))
                 "acme/infra"))],
     Thrown "HttpError").
Proof.
  apply (search_rejection_propagates
           (Scenario.offline "pr" None (Some "acme/infra") (Some "abc123"))
           "plan ok" "acme/infra" "HttpError"); reflexivity.
Defined.

Lemma listing_rejection_propagates_witness :
  settled (postComment Cases.pr_rejected_second_page "plan ok")
    = Thrown "HttpError" /\
  requests (postComment Cases.pr_rejected_second_page "plan ok")
    = (resolution_requests Cases.pr_rejected_second_page (OnPr 42)
         ++ page_requests
              (listing_request Cases.pr_rejected_second_page (OnPr 42)) 1 2)
      %list.
Proof.
  apply (listing_rejection_propagates Cases.pr_rejected_second_page "plan ok"
           (OnPr 42) [[Scenario.tagged_comment 5]] "HttpError" [Returned []]).
  - repeat split.
  - reflexivity.
  - reflexivity.
  - exact I.
Defined.

Lemma lookup_requests_of_answered_listing_witness :
  filter is_listing (requests (postComment Cases.pr_tag_on_first_page "plan ok"))
  = page_requests (listing_request Cases.pr_tag_on_first_page (OnPr 42)) 1 2.
Proof.
  apply (lookup_requests_of_answered_listing Cases.pr_tag_on_first_page
           "plan ok" (OnPr 42)
           [[Scenario.tagged_comment 5]; [Scenario.untagged_comment 6]]).
  - repeat split.
  - reflexivity.
  - reflexivity.
Defined.

Lemma written_comment_is_updated_by_later_run_witness :
  exists previous,
    find (body_includes (getCommentTag Cases.pr_tag_on_first_page))
      (List.concat
         [[Scenario.tagged_comment 5]; [Scenario.untagged_comment 6]])
      = Some previous /\
    filter is_update (requests (postComment Cases.pr_tag_on_first_page "again"))
      = [update_of Cases.pr_tag_on_first_page (OnPr 42) (id previous)
           (getCommentTag Cases.pr_tag_on_first_page ++ Js.LF ++ "again")] /\
    filter is_create (requests (postComment Cases.pr_tag_on_first_page "again"))
      = [] /\
    ((forall c,
        In c (List.concat
                [[Scenario.tagged_comment 5]; [Scenario.untagged_comment 6]]) ->
        body_includes (getCommentTag Cases.pr_tag_on_first_page) c = true ->
        id c = 5) ->
     id previous = 5).
Proof.
  apply (written_comment_is_updated_by_later_run
           Scenario.commit_with_previous "an earlier run"
           Cases.pr_tag_on_first_page "again" (OnPr 42)
           [[Scenario.tagged_comment 5]; [Scenario.untagged_comment 6]] 5);
    try reflexivity.
  - repeat split.
  - left. vm_compute. reflexivity.
Defined.

Lemma setFailed_only_for_unrecognized_mode_witness :
  commentMode (inputs (Scenario.offline "issue" None None None)) <> "none" /\
  commentMode (inputs (Scenario.offline "issue" None None None)) <> "pr" /\
  commentMode (inputs (Scenario.offline "issue" None None None)) <> "commit" /\
  postComment (Scenario.offline "issue" None None None) "plan ok"
  = ([SetFailed "Unrecognized comment mode issue"], Returned tt).
Proof.
  apply (setFailed_only_for_unrecognized_mode
           (Scenario.offline "issue" None None None) "plan ok"
           "Unrecognized comment mode issue").
  left. reflexivity.
Defined.

Lemma pull_number_provenance_witness :
  (direct_number (Scenario.pr_by_search [17; 18] true) = Some 17 /\
   17 <> 0 /\
   requests (getPullNumber (Scenario.pr_by_search [17; 18] true)) = [])
  \/
  (Js.truthy_opt Js.truthy_number
     (direct_number (Scenario.pr_by_search [17; 18] true)) = false /\
   exists fn data first others,
     repository_full_name (Scenario.pr_by_search [17; 18] true) = Some fn /\
     fn <> "" /\
     requests (getPullNumber (Scenario.pr_by_search [17; 18] true))
       = [SearchIssuesAndPullRequests
            (search_query (Scenario.pr_by_search [17; 18] true) fn)] /\
     search_issuesAndPullRequests
       (octokit (Scenario.pr_by_search [17; 18] true))
       (search_query (Scenario.pr_by_search [17; 18] true) fn)
       = Returned data /\
     items data = first :: others /\
     number first = 17).
Proof.
  apply (pull_number_provenance (Scenario.pr_by_search [17; 18] true) 17).
  reflexivity.
Defined.

Lemma getCommentTag_injective_up_to_md5_witness :
  (cdktfVersion (inputs Scenario.commit_with_previous)
   = cdktfVersion (inputs (Scenario.pr_by_search [17] false)) /\
   terraformVersion (inputs Scenario.commit_with_previous)
   = terraformVersion (inputs (Scenario.pr_by_search [17] false)) /\
   workingDirectory (inputs Scenario.commit_with_previous)
   = workingDirectory (inputs (Scenario.pr_by_search [17] false)) /\
   stackName (inputs Scenario.commit_with_previous)
   = stackName (inputs (Scenario.pr_by_search [17] false)) /\
   mode (inputs Scenario.commit_with_previous)
   = mode (inputs (Scenario.pr_by_search [17] false)))
  \/
  (options_json Scenario.commit_with_previous
   <> options_json (Scenario.pr_by_search [17] false) /\
   Md5.hexdigest (options_json Scenario.commit_with_previous)
   = Md5.hexdigest (options_json (Scenario.pr_by_search [17] false))).
Proof.
  apply (getCommentTag_injective_up_to_md5 Scenario.commit_with_previous
           (Scenario.pr_by_search [17] false)).
  vm_compute. reflexivity.
Defined.

Lemma search_only_without_direct_number_witness :
  commentMode (inputs (Scenario.pr_by_search [17] false)) = "pr" /\
  Js.truthy_opt Js.truthy_number
    (direct_number (Scenario.pr_by_search [17] false)) = false /\
  exists fn,
    repository_full_name (Scenario.pr_by_search [17] false) = Some fn /\
    fn <> "" /\
    "is:pr repo:acme/infra sha:abc123"
    = "is:pr repo:" ++ fn ++ " sha:"
        ++ match sha (context (Scenario.pr_by_search [17] false)) with
           | Some s => s
           | None => "undefined"
           end.
Proof.
  apply (search_only_without_direct_number (Scenario.pr_by_search [17] false)
           "plan ok" "is:pr repo:acme/infra sha:abc123").
  vm_compute. tauto.
Defined.
